(** * Dataset analyzer: a shallow embedding of [analyze_csv_data] (app.py)

    The analyzer reads a CSV text with pandas, classifies every column as
    numeric or categorical with the 80% rule, computes descriptive
    statistics and renders a text report.

    Modelling conventions.
    - A parsed cell is either the missing marker [NaN] or the text of the
      field.  pandas keeps an all-numeric column in parsed form; the model
      keeps the literal and lets [to_numeric] do the conversion, which is
      what the analyzer observes either way.  Columns that pandas infers as
      boolean are outside the model.
    - Floating-point results are idealised as exact rationals ([Q]); the
      not-a-number value and the square root taken by [std] are explicit
      constructors of [stat].  Rounding, overflow and the NaN of an
      infinity minus an infinity are not modelled, so nothing below bounds
      a mean, a median or a standard deviation.
    - What belongs to pandas and is not part of this repository is a
      parameter of the development: the tokenizer of [read_csv], the table
      of NA markers, the string-to-number conversion of [pd.to_numeric] and
      the [.2f] formatting of a float. *)

From Stdlib Require Import String Ascii List ZArith QArith Qminmax Lia.
From Stdlib Require Import Qround PrimFloat Uint63.
From stdpp Require Import base option list gmap strings pretty.

Open Scope string_scope.
Open Scope nat_scope.

(** ** Exceptions *)

(** The two ways a Python evaluation of the analyzer could stop short of a
    [return]: a division by zero or a failed column lookup.  (Exceptions of
    [pd.read_csv] are caught by the [try] and never propagate.) *)
Inductive exception :=
| ZeroDivisionError
| KeyError (key : string).

Inductive exc (A : Type) :=
| Return (a : A)
| Raise (e : exception).
Arguments Return {A} a.
Arguments Raise {A} e.

Definition bind {A B} (m : exc A) (k : A -> exc B) : exc B :=
  match m with
  | Return a => k a
  | Raise e => Raise e
  end.

Notation "x <- m ;; k" := (bind m (fun x => k))
  (at level 100, m at next level, right associativity).

(** Python's [a / b] on integers.  A zero divisor is an error: Python's
    own integers raise [ZeroDivisionError]; numpy's, which the counts of
    pandas are, answer inf or nan with a warning. *)
Definition truediv (a b : Z) : exc Q :=
  if (b =? 0)%Z then Raise ZeroDivisionError
  else Return (Qmake a 1 / Qmake b 1)%Q.

(** ** Series *)

Inductive cell :=
| NaN
| Str (s : string).

Abbreviation Series := (list cell).

Definition isnull (c : cell) : bool :=
  match c with NaN => true | Str _ => false end.

(** [col.isnull().sum()] *)
Definition isnull_sum (col : Series) : nat :=
  length (List.filter isnull col).

(** The non-missing raw values of a column, in row order. *)
Definition raw_value (c : cell) : option string :=
  match c with NaN => None | Str s => Some s end.

Definition raw_values (col : Series) : list string :=
  omap raw_value col.

(** [col.value_counts().to_dict()]: missing cells are dropped (pandas'
    default [dropna=True]) and every remaining value is counted under
    exact equality.  The order of the keys is not modelled. *)
Definition count_value (counts : gmap string nat) (s : string) : gmap string nat :=
  <[s := S (default 0 (counts !! s))]> counts.

Definition value_counts (col : Series) : gmap string nat :=
  foldl count_value ∅ (raw_values col).

(** Sum of the values of a frequency map. *)
Definition counts_total (counts : gmap string nat) : nat :=
  map_fold (fun _ n acc => n + acc) 0 counts.

(** ** Numeric results *)

Inductive stat :=
| SNaN
| Exact (q : Q)
| Sqrt (q : Q).

(** Reductions of a series of numbers, as pandas defines them; each one is
    NaN on an empty series. *)
Definition Qsum (xs : list Q) : Q := fold_right Qplus 0%Q xs.

Definition series_min (xs : list Q) : stat :=
  match xs with
  | [] => SNaN
  | x :: rest => Exact (fold_left Qmin rest x)
  end.

Definition series_max (xs : list Q) : stat :=
  match xs with
  | [] => SNaN
  | x :: rest => Exact (fold_left Qmax rest x)
  end.

Definition Qmean (xs : list Q) : Q :=
  (Qsum xs / Qmake (Z.of_nat (length xs)) 1)%Q.

Definition series_mean (xs : list Q) : stat :=
  match xs with
  | [] => SNaN
  | _ => Exact (Qmean xs)
  end.

Fixpoint insert_sorted (x : Q) (xs : list Q) : list Q :=
  match xs with
  | [] => [x]
  | y :: rest => if Qle_bool x y then x :: y :: rest else y :: insert_sorted x rest
  end.

Definition sort_values (xs : list Q) : list Q :=
  fold_right insert_sorted [] xs.

Definition series_median (xs : list Q) : stat :=
  let sorted := sort_values xs in
  let n := length sorted in
  match n with
  | 0 => SNaN
  | _ =>
      if Nat.even n
      then Exact ((nth (n / 2 - 1) sorted 0 + nth (n / 2) sorted 0) / 2)%Q
      else Exact (nth (n / 2) sorted 0%Q)
  end.

(** [Series.std(ddof)]: the square root of the sum of squared deviations
    from the mean divided by [count - ddof]; NaN when [count <= ddof]. *)
Definition nanvar (ddof : nat) (xs : list Q) : option Q :=
  let count := length xs in
  if count <=? ddof then None
  else
    let avg := Qmean xs in
    let sqr := map (fun x => ((avg - x) * (avg - x))%Q) xs in
    Some (Qsum sqr / Qmake (Z.of_nat (count - ddof)) 1)%Q.

Definition nanstd (ddof : nat) (xs : list Q) : stat :=
  match nanvar ddof xs with
  | None => SNaN
  | Some v => Sqrt v
  end.

(** [Series.std()] with pandas' default [ddof=1]. *)
Definition series_std (xs : list Q) : stat := nanstd 1 xs.

(** ** Column profiles *)

Record numeric_info := {
  info_min : stat;
  info_max : stat;
  info_mean : stat;
  info_median : stat;
  info_std : stat;
  info_count : nat;
  numeric_missing_count : nat
}.

Record categorical_info := {
  unique_values : nat;
  counts : gmap string nat;
  categorical_missing_count : nat
}.

(** One entry of [column_info]; the constructor is the ['type'] key. *)
Inductive column_entry :=
| Numeric (info : numeric_info)
| Categorical (info : categorical_info).

Definition missing_count (e : column_entry) : nat :=
  match e with
  | Numeric i => numeric_missing_count i
  | Categorical i => categorical_missing_count i
  end.

(** ** DataFrame *)

Record DataFrame := {
  index_len : nat;
  frame : list (string * Series)
}.

(** [df.shape] *)
Definition shape (df : DataFrame) : nat * nat :=
  (index_len df, length (frame df)).

(** [df.columns] *)
Definition df_columns (df : DataFrame) : list string := map fst (frame df).

(** [df[col_name]] *)
Definition df_getitem (df : DataFrame) (col_name : string) : exc Series :=
  match find (fun c => String.eqb (fst c) col_name) (frame df) with
  | Some c => Return (snd c)
  | None => Raise (KeyError col_name)
  end.

(** [df.isnull().sum().sum()] *)
Definition isnull_sum_sum (df : DataFrame) : nat :=
  fold_right (fun c acc => isnull_sum (snd c) + acc) 0 (frame df).

(** Every column has one cell per row. *)
Definition well_formed (df : DataFrame) : Prop :=
  Forall (fun c => length (snd c) = index_len df) (frame df).

(** ** Python dictionaries with string keys, in insertion order *)

Fixpoint dict_set {V} (d : list (string * V)) (k : string) (v : V) : list (string * V) :=
  match d with
  | [] => [(k, v)]
  | (k', v') :: rest =>
      if String.eqb k' k then (k, v) :: rest else (k', v') :: dict_set rest k v
  end.

Fixpoint dict_get {V} (d : list (string * V)) (k : string) : option V :=
  match d with
  | [] => None
  | (k', v) :: rest => if String.eqb k' k then Some v else dict_get rest k
  end.

Definition dict_keys {V} (d : list (string * V)) : list string := map fst d.

Section Analyzer.

(** pandas' string-to-number conversion ([pd.to_numeric] on one field):
    [None] when the field is not a number. *)
Variable str_to_number : string -> option Q.

(** Python's [format(x, ".2f")]. *)
Variable format_2f : stat -> string.

(** [pd.to_numeric(col_data, errors='coerce').dropna()]: a field that does
    not convert is coerced to NaN, and every NaN is then dropped. *)
Definition to_numeric_coerce (c : cell) : option Q :=
  match c with
  | NaN => None
  | Str s => str_to_number s
  end.

Definition to_numeric_dropna (col : Series) : list Q :=
  omap to_numeric_coerce col.

(** *** The body of the column loop (app.py, lines 39-68) *)

(** The test of line 49.  Python's [and] evaluates the division only when
    the numeric series is not empty. *)
Definition primarily_numeric (col_data : Series) : exc bool :=
  let numeric_col_data := to_numeric_dropna col_data in
  let col_missing_count := isnull_sum col_data in
  match numeric_col_data with
  | [] => Return false
  | _ =>
      ratio <- truediv (Z.of_nat (length numeric_col_data))
                       (Z.of_nat (length col_data) - Z.of_nat col_missing_count);;
      Return (negb (Qle_bool ratio (8 # 10)))
  end.

Definition column_profile (col_data : Series) : exc column_entry :=
  let numeric_col_data := to_numeric_dropna col_data in
  let col_missing_count := isnull_sum col_data in
  numeric <- primarily_numeric col_data;;
  if numeric : bool then
    Return (Numeric {|
      info_min := series_min numeric_col_data;
      info_max := series_max numeric_col_data;
      info_mean := series_mean numeric_col_data;
      info_median := series_median numeric_col_data;
      info_std := series_std numeric_col_data;
      info_count := length numeric_col_data;
      numeric_missing_count := col_missing_count |})
  else
    let counts := value_counts col_data in
    Return (Categorical {|
      unique_values := size counts;
      counts := counts;
      categorical_missing_count := col_missing_count |}).

(** [for col_name in df.columns: ...], threading [column_info]. *)
Fixpoint analyze_columns (df : DataFrame) (names : list string)
    (column_info : list (string * column_entry)) : exc (list (string * column_entry)) :=
  match names with
  | [] => Return column_info
  | col_name :: rest =>
      col_data <- df_getitem df col_name;;
      entry <- column_profile col_data;;
      analyze_columns df rest (dict_set column_info col_name entry)
  end.

(** Line 33. *)
Definition missing_percentage (missing_values_count total_cells : nat) : exc Q :=
  if 0 <? total_cells then
    q <- truediv (Z.of_nat missing_values_count) (Z.of_nat total_cells);;
    Return (q * 100)%Q
  else Return 0%Q.

(** *** The text report (lines 71-79) *)

Definition nl : string := String (Ascii.ascii_of_nat 10) EmptyString.

Definition str_nat (n : nat) : string := pretty n.

Definition column_line (col_name : string) (info : column_entry) : string :=
  "- **" ++ col_name ++ "**: " ++
  match info with
  | Numeric i =>
      "Numeric (Min: " ++ format_2f (info_min i) ++
      ", Max: " ++ format_2f (info_max i) ++
      ", Mean: " ++ format_2f (info_mean i) ++
      ", Median: " ++ format_2f (info_median i) ++
      ", Std Dev: " ++ format_2f (info_std i) ++
      ", Non-null: " ++ str_nat (info_count i) ++
      "). Missing: " ++ str_nat (numeric_missing_count i) ++ " values." ++ nl
  | Categorical i =>
      "Categorical (" ++ str_nat (unique_values i) ++
      " unique values). Missing: " ++ str_nat (categorical_missing_count i) ++
      " values." ++ nl
  end.

Definition render_summary (num_rows num_cols missing_values_count : nat)
    (missing_percentage : Q) (column_info : list (string * column_entry)) : string :=
  let summary :=
    "The dataset contains " ++ str_nat num_rows ++ " rows and " ++
    str_nat num_cols ++ " columns." ++ nl in
  let summary := summary ++
    "Total missing values across the dataset: " ++ str_nat missing_values_count ++
    " (" ++ format_2f (Exact missing_percentage) ++ "% of all cells)." ++ nl ++ nl in
  let summary := summary ++ "Column Details:" ++ nl in
  fold_left (fun summary item => summary ++ column_line (fst item) (snd item))
    column_info summary.

(** *** The analysis of a parsed frame (lines 30-85) *)

Record report := {
  row_count : nat;
  column_count : nat;
  total_missing : nat;
  percentage : Q;
  column_info : list (string * column_entry);
  summary : string
}.

Definition analyze_frame (df : DataFrame) : exc report :=
  let '(num_rows, num_cols) := shape df in
  let missing_values_count := isnull_sum_sum df in
  let total_cells := num_rows * num_cols in
  pct <- missing_percentage missing_values_count total_cells;;
  info <- analyze_columns df (df_columns df) [];;
  Return {|
    row_count := num_rows;
    column_count := num_cols;
    total_missing := missing_values_count;
    percentage := pct;
    column_info := info;
    summary := render_summary num_rows num_cols missing_values_count pct info |}.

(** *** Reading the CSV text (line 26) *)

(** What the tokenizer of [pd.read_csv] hands to the column converters: the
    number of data records and, per column, its name and the field of every
    record.  The tokenizer itself (quoting, blank lines, rows of the wrong
    width) is pandas' and stays a parameter; when it raises, [inl] carries
    the text of the exception. *)
Record token_table := {
  records : nat;
  fields : list (string * list string)
}.

Variable tokenize : string -> string + token_table.

(** The NA markers of [pd.read_csv]. *)
Variable na_values : list string.

Definition is_na (token : string) : bool :=
  bool_decide (token ∈ na_values).

Definition cell_of_token (token : string) : cell :=
  if is_na token then NaN else Str token.

Definition convert_column (tokens : list string) : Series :=
  map cell_of_token tokens.

Definition read_csv (csv_content : string) : string + DataFrame :=
  match tokenize csv_content with
  | inl e => inl e
  | inr t =>
      inr {| index_len := records t;
             frame := map (fun c => (fst c, convert_column (snd c))) (fields t) |}
  end.

(** *** [analyze_csv_data] *)

Inductive pyvalue :=
| PStr (s : string)
| PColumnInfo (d : list (string * column_entry))
| PDataFrame (df : DataFrame).

Definition analyze_csv_data (csv_content : string) : exc (list (string * pyvalue)) :=
  match read_csv csv_content with
  | inl e => Return [("error", PStr ("Failed to parse CSV: " ++ e))]
  | inr df =>
      r <- analyze_frame df;;
      Return [("summary", PStr (summary r));
              ("column_info", PColumnInfo (column_info r));
              ("dataframe", PDataFrame df)]
  end.

End Analyzer.


(** ** Quantities the statements speak about *)

Definition numeric_count (str_to_number : string -> option Q) (col : Series) : nat :=
  length (to_numeric_dropna str_to_number col).

Definition non_missing_count (col : Series) : nat :=
  length col - isnull_sum col.

Definition numeric_fraction (str_to_number : string -> option Q) (col : Series) : Q :=
  (Qmake (Z.of_nat (numeric_count str_to_number col)) 1 /
   Qmake (Z.of_nat (non_missing_count col)) 1)%Q.

Definition is_numeric (e : column_entry) : bool :=
  match e with Numeric _ => true | Categorical _ => false end.

(** How often [s] occurs in [l], under exact string equality. *)
Definition occurrences (s : string) (l : list string) : nat :=
  length (List.filter (String.eqb s) l).

(** Every stored count is positive. *)
Definition positive_counts (m : gmap string nat) : Prop :=
  forall s n, m !! s = Some n -> 0 < n.

(** One entry per column, in column order, each the profile of its column. *)
Definition profiles_of (str_to_number : string -> option Q)
    (cols : list (string * Series))
    (info : list (string * column_entry)) : Prop :=
  Forall2 (fun c e => fst e = fst c /\
                      column_profile str_to_number (snd c) = Return (snd e))
          cols info.

(** The fields of a column that are NA markers, and those that are not. *)
Definition na_tokens (na_values tokens : list string) : list string :=
  List.filter (is_na na_values) tokens.

Definition present_tokens (na_values tokens : list string) : list string :=
  List.filter (fun token => negb (is_na na_values token)) tokens.

(** The fields that are neither NA markers nor numbers: the non-numeric
    values the 80% rule weighs against the numeric ones. *)
Definition non_numeric_tokens (str_to_number : string -> option Q)
    (na_values tokens : list string) : list string :=
  List.filter (fun token => match str_to_number token with Some _ => false | None => true end)
    (present_tokens na_values tokens).

(** The comparison of line 49 as the binary64 computation Python performs:
    both lengths become floats, the quotient is rounded once and compared
    with the float nearest to 0.8. *)
Definition float_of_nat (n : nat) : float :=
  PrimFloat.of_uint63 (Uint63.of_Z (Z.of_nat n)).

Definition float_ratio_exceeds (n d : nat) : bool :=
  PrimFloat.ltb 0x1.999999999999ap-1%float
    (PrimFloat.div (float_of_nat n) (float_of_nat d)).

Definition exact_ratio_exceeds (n d : nat) : bool :=
  negb (Qle_bool (Qmake (Z.of_nat n) 1 / Qmake (Z.of_nat d) 1) (8 # 10)).

Definition ratios_agree_upto (bound : nat) : bool :=
  forallb (fun d =>
             forallb (fun n => Bool.eqb (float_ratio_exceeds n d) (exact_ratio_exceeds n d))
                     (seq 0 (S d)))
          (seq 1 bound).

(** The sample standard deviation as statistics texts define it: the
    square root of the sum of squared deviations from the arithmetic mean
    divided by [n - 1], undefined for fewer than two values. *)
Definition sample_variance (xs : list Q) : Q :=
  let n := length xs in
  let m := (Qsum xs / Qmake (Z.of_nat n) 1)%Q in
  (Qsum (map (fun x => (m - x) * (m - x))%Q xs) / Qmake (Z.of_nat (n - 1)) 1)%Q.

Definition sample_std (xs : list Q) : stat :=
  match xs with
  | [] | [_] => SNaN
  | _ => Sqrt (sample_variance xs)
  end.

(** ** An instance of the parameters

    Enough of pandas to run the analyzer on small inputs: integer
    literals, unquoted comma-separated text whose records are as wide as
    the header, pandas' documented default NA markers, and an
    exact-arithmetic rendering to two decimals. *)
Module Plain.

Definition digit_of (a : Ascii.ascii) : option Z :=
  let n := Ascii.nat_of_ascii a in
  if (48 <=? n) && (n <=? 57) then Some (Z.of_nat (n - 48)) else None.

Fixpoint parse_digits (s : string) (acc : Z) : option Z :=
  match s with
  | EmptyString => Some acc
  | String a rest =>
      match digit_of a with
      | Some d => parse_digits rest (10 * acc + d)%Z
      | None => None
      end
  end.

(** Integer literals with an optional minus sign; pandas accepts more. *)
Definition str_to_number (s : string) : option Q :=
  match s with
  | EmptyString => None
  | String "-"%char EmptyString => None
  | String "-"%char rest => (fun z => Qmake (- z) 1) <$> parse_digits rest 0
  | _ => (fun z => Qmake z 1) <$> parse_digits s 0
  end.

Fixpoint split_on (sep : Ascii.ascii) (s : string) : list string :=
  match s with
  | EmptyString => [EmptyString]
  | String a rest =>
      if Ascii.eqb a sep then EmptyString :: split_on sep rest
      else
        match split_on sep rest with
        | [] => [String a EmptyString]
        | w :: ws => String a w :: ws
        end
  end.

Definition non_blank (line : string) : bool :=
  negb (String.eqb line "").

(** Blank lines are skipped and a text without a header is an error, as in
    pandas.  A record that is not as wide as the header is outside this
    fragment and is reported as an error too. *)
Definition tokenize (csv_content : string) : string + token_table :=
  match List.filter non_blank (split_on (Ascii.ascii_of_nat 10) csv_content) with
  | [] => inl "No columns to parse from file"
  | header :: rows =>
      let names := split_on ","%char header in
      let recs := map (split_on ","%char) rows in
      if forallb (fun r => length r =? length names) recs then
        inr {| records := length recs;
               fields := imap (fun j name => (name, map (fun r => nth j r "") recs)) names |}
      else inl "Error tokenizing data"
  end.

(** The default NA markers listed in the documentation of [pd.read_csv]. *)
Definition STR_NA_VALUES : list string :=
  [""; "#N/A"; "#N/A N/A"; "#NA"; "-1.#IND"; "-1.#QNAN"; "-NaN"; "-nan";
   "1.#IND"; "1.#QNAN"; "<NA>"; "N/A"; "NA"; "NULL"; "NaN"; "None"; "n/a";
   "nan"; "null"].

(** [q] in hundredths, rounded half to even. *)
Definition hundredths (q : Q) : Z :=
  let n := (Qnum q * 100)%Z in
  let d := Z.pos (Qden q) in
  let f := (n / d)%Z in
  let r := (n mod d)%Z in
  if (2 * r <? d)%Z then f
  else if (d <? 2 * r)%Z then (f + 1)%Z
  else if Z.even f then f else (f + 1)%Z.

(** The square root of [q] in hundredths, rounded to nearest. *)
Definition sqrt_hundredths (q : Q) : Z :=
  ((Z.sqrt ((Qnum q * 40000) / Z.pos (Qden q)) + 1) / 2)%Z.

Definition two_digits (z : Z) : string :=
  (if (z <? 10)%Z then "0" else "") ++ pretty z.

Definition render_hundredths (h : Z) : string :=
  (if (h <? 0)%Z then "-" else "") ++
  pretty (Z.abs h / 100)%Z ++ "." ++ two_digits (Z.abs h mod 100)%Z.

Definition format_2f (x : stat) : string :=
  match x with
  | SNaN => "nan"
  | Exact q => render_hundredths (hundredths q)
  | Sqrt q => render_hundredths (sqrt_hundredths q)
  end.

Definition column_profile := column_profile str_to_number.
Definition read_csv := read_csv tokenize STR_NA_VALUES.
Definition analyze_csv_data :=
  analyze_csv_data str_to_number format_2f tokenize STR_NA_VALUES.

End Plain.

(** ** The Streamlit script (app.py, lines 88-303)

    The script is run top to bottom on every interaction; its effect is
    the page it draws.  The page is modelled as the list of the widgets
    written, in order, each with the chart column it was written into
    ([None] for the main area).  The spinner shown while the analysis runs
    is transient and leaves nothing on the page. *)

(** What a figure is drawn from.  The bars of a frequency chart are the
    entries of [counts] in descending order of count; the order among
    equal counts is not modelled.  The histogram is drawn from
    [df[col_name].dropna()]. *)
Inductive plot_data :=
| Bars (counts : gmap string nat)
| Hist (values : list string).

Record figure := {
  fig_title : string;
  fig_xlabel : string;
  fig_ylabel : string;
  fig_data : plot_data
}.

(** One entry of [chart_images_for_ppt]; the PNG buffer is the figure it
    was saved from. *)
Record chart := {
  title : string;
  image_buffer : figure
}.

(** Shapes and slides of the presentation; lengths in EMU. *)
Inductive shape_ :=
| Textbox (left top width height : Q) (text : string) (font_size : Z)
| Picture (image : figure) (left top width height : Q).

Inductive slide :=
| TitleSlide (title_text subtitle_text : string)
| BlankSlide (shapes : list shape_).

Inductive payload :=
| CsvData (csv : string)
| TextData (text : string)
| PptData (slides : list slide).

Inductive widget :=
| st_set_page_config (layout page_title : string)
| st_title (body : string)
| st_markdown (body : string)
| st_file_uploader (label type : string)
| st_error (body : string)
| st_subheader (body : string)
| st_text (body : string)
| st_write (body : string)
| st_info (body : string)
| st_success (body : string)
| st_pyplot (fig : figure)
| st_button (label : string)
| st_download_button (label : string) (data : payload) (file_name mime help : string).

Abbreviation page := (list (option nat * widget)).

(** The state of the chart loop (lines 112-168). *)
Record charts_state := {
  drawn : page;
  chart_images_for_ppt : list chart;
  num_charts_displayed : nat;
  chart_idx : nat
}.

(** How a run of the script can end: the page is drawn, an exception of
    the analysis or of a lookup escapes, or a value of the result
    dictionary does not have the type the script uses it at. *)
Inductive outcome (A : Type) :=
| Done (a : A)
| Uncaught (e : exception)
| WrongType (key : string).
Arguments Done {A} a.
Arguments Uncaught {A} e.
Arguments WrongType {A} key.

Definition in_main (w : widget) : option nat * widget := (None, w).

Section Script.

Variable str_to_number : string -> option Q.
Variable format_2f : stat -> string.
Variable tokenize : string -> string + token_table.
Variable na_values : list string.

(** [df.to_csv(index=False)] *)
Variable to_csv : DataFrame -> string.

(** [pptx.util.Inches] and the slide size of a new [Presentation()]. *)
Variable Inches : Q -> Z.
Variable slide_width slide_height : Z.

(** The two static advisory texts (lines 248-278 and 281-297). *)
Variable context_text manual_steps_text : string.

(** *** The chart loop body (lines 121-168) *)

Definition chart_step (df : DataFrame) (st : charts_state)
    (item : string * column_entry) : exc charts_state :=
  let '(col_name, info) := item in
  let slot := Some (chart_idx st mod 2) in
  match info with
  | Categorical i =>
      if unique_values i <? 50 then
        let chart_title := "Frequency Distribution of " ++ col_name in
        let fig := {| fig_title := chart_title; fig_xlabel := col_name;
                      fig_ylabel := "Count"; fig_data := Bars (counts i) |} in
        Return {|
          drawn := (drawn st ++ [(slot, st_write ("#### " ++ chart_title));
                                 (slot, st_pyplot fig)])%list;
          chart_images_for_ppt :=
            (chart_images_for_ppt st ++ [{| title := chart_title; image_buffer := fig |}])%list;
          num_charts_displayed := num_charts_displayed st + 1;
          chart_idx := chart_idx st + 1 |}
      else Return st
  | Numeric i =>
      if 10 <? info_count i then
        let chart_title := "Distribution of " ++ col_name in
        col_data <- df_getitem df col_name;;
        let fig := {| fig_title := chart_title; fig_xlabel := col_name;
                      fig_ylabel := "Density / Count";
                      fig_data := Hist (raw_values col_data) |} in
        Return {|
          drawn := (drawn st ++ [(slot, st_write ("#### " ++ chart_title));
                                 (slot, st_pyplot fig)])%list;
          chart_images_for_ppt :=
            (chart_images_for_ppt st ++ [{| title := chart_title; image_buffer := fig |}])%list;
          num_charts_displayed := num_charts_displayed st + 1;
          chart_idx := chart_idx st + 1 |}
      else
        Return {|
          drawn := (drawn st ++
                    [(slot, st_info ("Not enough data points to plot distribution for '" ++
                                     col_name ++ "' in this column."))])%list;
          chart_images_for_ppt := chart_images_for_ppt st;
          num_charts_displayed := num_charts_displayed st;
          chart_idx := chart_idx st |}
  end.

Fixpoint chart_loop (df : DataFrame) (items : list (string * column_entry))
    (st : charts_state) : exc charts_state :=
  match items with
  | [] => Return st
  | item :: rest =>
      st' <- chart_step df st item;;
      chart_loop df rest st'
  end.

(** Lines 108-171: the "Visualizations" section. *)
Definition visualizations (df : DataFrame) (column_info : list (string * column_entry))
    : exc charts_state :=
  st <- chart_loop df column_info
          {| drawn := [in_main (st_subheader "Visualizations")];
             chart_images_for_ppt := [];
             num_charts_displayed := 0;
             chart_idx := 0 |};;
  if num_charts_displayed st =? 0 then
    Return {|
      drawn := (drawn st ++
                [in_main (st_info "No suitable columns found for automatic chart generation (e.g., all columns are text, too many unique values, or insufficient numeric data).")])%list;
      chart_images_for_ppt := chart_images_for_ppt st;
      num_charts_displayed := num_charts_displayed st;
      chart_idx := chart_idx st |}
  else Return st.

(** *** The presentation (lines 200-233) *)

Definition chart_slide (chart_data : chart) : slide :=
  let left := Inches (5 # 10) in
  let top := Inches (5 # 10) in
  let title_shape :=
    Textbox (inject_Z left) (inject_Z top)
            (inject_Z (slide_width - Inches 1)) (inject_Z (Inches (75 # 100)))
            (title chart_data) (Inches (25 # 100)) in
  let img_width := Inches 8 in
  let img_height := Inches 5 in
  let left := (inject_Z (slide_width - img_width) / 2)%Q in
  let top := (inject_Z (slide_height - img_height) / 2 + inject_Z (Inches (5 # 10)))%Q in
  BlankSlide [title_shape;
              Picture (image_buffer chart_data) left top
                      (inject_Z img_width) (inject_Z img_height)].

Definition build_presentation (charts : list chart) : list slide :=
  TitleSlide "Dataset Analysis Report" "Generated by Streamlit Analyzer"
  :: map chart_slide charts.

(** Lines 197-244; [clicked] is what [st.button] returns. *)
Definition ppt_section (charts : list chart) (clicked : bool) : page :=
  in_main (st_subheader "Generate Presentation (PPT)") ::
  match charts with
  | [] => [in_main (st_info "Upload a dataset to generate charts and the PPT.")]
  | _ =>
      in_main (st_button "Generate and Download PPT") ::
      if clicked then
        [in_main (st_download_button "Click to Download PPT"
                    (PptData (build_presentation charts))
                    "dataset_analysis_report.pptx"
                    "application/vnd.openxmlformats-officedocument.presentationml.presentation"
                    "Download a PowerPoint presentation with all generated charts.");
         in_main (st_success "PPT generated successfully!")]
      else []
  end.

(** *** The download buttons (lines 173-194) *)

Definition download_section (df : DataFrame) (summary : string) : page :=
  [in_main (st_subheader "Download Section");
   in_main (st_markdown "You can download the analyzed dataset or a summary of the analysis for your records.");
   in_main (st_download_button "Download Analyzed Data (CSV)" (CsvData (to_csv df))
              "analyzed_data.csv" "text/csv"
              "Download the full dataset you uploaded, as processed by the analyzer.");
   in_main (st_download_button "Download Dataset Overview (Text)" (TextData summary)
              "dataset_overview.txt" "text/plain"
              "Download the textual summary of the dataset's characteristics.")].

Definition advice_section : page :=
  [in_main (st_subheader "Context: Leveraging Data for Organizational Development");
   in_main (st_markdown context_text);
   in_main (st_subheader "Creating a Professional Presentation (PPT) - Manual Steps");
   in_main (st_markdown manual_steps_text)].

(** *** Reading the result dictionary *)

Definition lift {A} (m : exc A) : outcome A :=
  match m with
  | Return a => Done a
  | Raise e => Uncaught e
  end.

(** [analysis_results[key]] *)
Definition getitem (analysis_results : list (string * pyvalue)) (key : string) : outcome pyvalue :=
  match dict_get analysis_results key with
  | Some v => Done v
  | None => Uncaught (KeyError key)
  end.

(** Lines 105-297: the page for a successful analysis. *)
Definition results_page (analysis_results : list (string * pyvalue)) (clicked : bool)
    : outcome page :=
  match getitem analysis_results "summary" with
  | Done (PStr summary_text) =>
      match getitem analysis_results "dataframe" with
      | Done (PDataFrame df) =>
          match getitem analysis_results "column_info" with
          | Done (PColumnInfo column_info) =>
              match visualizations df column_info with
              | Return st =>
                  Done ([in_main (st_subheader "Dataset Overview");
                         in_main (st_text summary_text)] ++
                        drawn st ++
                        download_section df summary_text ++
                        ppt_section (chart_images_for_ppt st) clicked ++
                        advice_section)%list
              | Raise e => Uncaught e
              end
          | Done _ => WrongType "column_info"
          | Uncaught e => Uncaught e
          | WrongType k => WrongType k
          end
      | Done _ => WrongType "dataframe"
      | Uncaught e => Uncaught e
      | WrongType k => WrongType k
      end
  | Done _ => WrongType "summary"
  | Uncaught e => Uncaught e
  | WrongType k => WrongType k
  end.

Definition page_header : page :=
  [in_main (st_set_page_config "wide" "Dataset Analyzer");
   in_main (st_title "📊 Dataset Analyzer");
   in_main (st_markdown "Upload your CSV file to get an automated overview and visualizations.");
   in_main (st_file_uploader "Choose a CSV file" "csv")].

Definition page_footer : page :=
  [in_main (st_markdown "---");
   in_main (st_markdown "Developed with Streamlit")].

(** The whole script; [uploaded_file] is the decoded content of the upload,
    if there is one. *)
Definition app (uploaded_file : option string) (clicked : bool) : outcome page :=
  match uploaded_file with
  | Some csv_content =>
      match analyze_csv_data str_to_number format_2f tokenize na_values csv_content with
      | Raise e => Uncaught e
      | Return analysis_results =>
          match dict_get analysis_results "error" with
          | Some (PStr reason) =>
              Done (page_header ++ [in_main (st_error ("Error: " ++ reason))] ++ page_footer)%list
          | Some _ => WrongType "error"
          | None =>
              match results_page analysis_results clicked with
              | Done body => Done (page_header ++ body ++ page_footer)%list
              | Uncaught e => Uncaught e
              | WrongType k => WrongType k
              end
          end
      end
  | None =>
      Done (page_header ++
            [in_main (st_info "Please upload a CSV file to begin analysis.")] ++
            page_footer)%list
  end.

End Script.

(** *** What the statements about the script speak about *)

(** The chart the loop draws for an entry, by title: a frequency chart for
    a categorical column with fewer than 50 distinct values, a
    distribution chart for a numeric column with more than 10 values. *)
Definition planned_title (item : string * column_entry) : option string :=
  match snd item with
  | Categorical i =>
      if unique_values i <? 50 then Some ("Frequency Distribution of " ++ fst item) else None
  | Numeric i =>
      if 10 <? info_count i then Some ("Distribution of " ++ fst item) else None
  end.

(** The numeric columns too short for a chart. *)
Definition too_short (item : string * column_entry) : bool :=
  match snd item with
  | Numeric i => negb (10 <? info_count i)
  | Categorical _ => false
  end.

(** The chart columns of the figures on a page, in order. *)
Definition pyplot_slots (p : page) : list (option nat) :=
  omap (fun w => match snd w with st_pyplot _ => Some (fst w) | _ => None end) p.

(** The messages of the [st.info] calls on a page, in order. *)
Definition info_messages (p : page) : list string :=
  omap (fun w => match snd w with st_info m => Some m | _ => None end) p.

Definition no_charts_message : string :=
  "No suitable columns found for automatic chart generation (e.g., all columns are text, too many unique values, or insufficient numeric data).".

Definition too_short_message (col_name : string) : string :=
  "Not enough data points to plot distribution for '" ++ col_name ++ "' in this column.".

(** A chart is drawn from an entry of the column information: a
    frequency chart from the counts of a categorical entry, a distribution
    chart from the non-missing values of the frame's column of that name. *)
Definition drawn_from (df : DataFrame) (column_info : list (string * column_entry))
    (c : chart) : Prop :=
  exists col_name entry,
    In (col_name, entry) column_info /\
    fig_xlabel (image_buffer c) = col_name /\
    match entry with
    | Categorical i =>
        title c = "Frequency Distribution of " ++ col_name /\
        fig_ylabel (image_buffer c) = "Count" /\
        fig_data (image_buffer c) = Bars (counts i) /\
        unique_values i < 50
    | Numeric i =>
        title c = "Distribution of " ++ col_name /\
        fig_ylabel (image_buffer c) = "Density / Count" /\
        10 < info_count i /\
        exists col_data,
          df_getitem df col_name = Return col_data /\
          fig_data (image_buffer c) = Hist (raw_values col_data)
    end.

(** The text and the picture of a chart slide. *)
Definition slide_texts (s : slide) : list string :=
  match s with
  | TitleSlide t _ => [t]
  | BlankSlide shapes =>
      omap (fun sh => match sh with Textbox _ _ _ _ t _ => Some t | Picture _ _ _ _ _ => None end)
        shapes
  end.

Definition slide_pictures (s : slide) : list figure :=
  match s with
  | TitleSlide _ _ => []
  | BlankSlide shapes =>
      omap (fun sh => match sh with Picture img _ _ _ _ => Some img | Textbox _ _ _ _ _ _ => None end)
        shapes
  end.

(** The presentations offered for download on a page. *)
Definition offered_presentations (p : page) : list (list slide) :=
  omap (fun w => match snd w with
                 | st_download_button _ (PptData slides) _ _ _ => Some slides
                 | _ => None
                 end) p.

(** ** An instance of the parameters of the script

    python-pptx measures in English Metric Units, 914400 to the inch, and
    a new presentation is 10 inches wide and 7.5 inches high. *)
Module PlainScript.

Definition Inches (inches : Q) : Z := Qfloor (inches * 914400).

Definition slide_width : Z := 9144000.
Definition slide_height : Z := 6858000.

(** A writer for frames whose fields need no quoting: the header line,
    then one line per row, a missing cell written as the empty field. *)
Definition cell_text (c : cell) : string :=
  match c with NaN => "" | Str s => s end.

Definition to_csv (df : DataFrame) : string :=
  String.concat ""
    (map (fun line => line ++ nl)
       (String.concat "," (df_columns df) ::
        map (fun k => String.concat ","
                        (map (fun c => cell_text (nth k (snd c) NaN)) (frame df)))
            (seq 0 (index_len df)))).

Definition app :=
  app Plain.str_to_number Plain.format_2f Plain.tokenize Plain.STR_NA_VALUES
      to_csv Inches slide_width slide_height "" "".

End PlainScript.

(** ** Runs that differ in the key order of [to_dict]

    [col_data.value_counts().to_dict()] is an ordinary dictionary, and
    [len(counts)] and the report are computed from it.  What the analysis
    leaves to the run is the order in which that dictionary holds its
    keys: here every run has its own [to_dict], which lists the entries of
    the frequency map in an order of its choosing.  Everything else the
    function calls ([pd.read_csv] on an in-memory buffer, the Series
    methods, string formatting) is a function of its arguments; the body
    reads no file, clock or random source. *)

Inductive ordered_entry :=
| ONumeric (info : numeric_info)
| OCategorical (unique_values : nat) (counts : list (string * nat)) (missing_count : nat).

Inductive ordered_pyvalue :=
| OStr (s : string)
| OColumnInfo (d : list (string * ordered_entry))
| ODataFrame (df : DataFrame).

Record ordered_report := {
  o_row_count : nat;
  o_column_count : nat;
  o_total_missing : nat;
  o_percentage : Q;
  o_column_info : list (string * ordered_entry);
  o_summary : string
}.

Section OrderedRun.

Variable str_to_number : string -> option Q.
Variable format_2f : stat -> string.
Variable tokenize : string -> string + token_table.
Variable na_values : list string.

(** [.to_dict()] of this run. *)
Variable to_dict : gmap string nat -> list (string * nat).

(** Lines 39-68. *)
Definition column_profile_by (col_data : Series) : exc ordered_entry :=
  let numeric_col_data := to_numeric_dropna str_to_number col_data in
  let col_missing_count := isnull_sum col_data in
  numeric <- primarily_numeric str_to_number col_data;;
  if numeric : bool then
    Return (ONumeric {|
      info_min := series_min numeric_col_data;
      info_max := series_max numeric_col_data;
      info_mean := series_mean numeric_col_data;
      info_median := series_median numeric_col_data;
      info_std := series_std numeric_col_data;
      info_count := length numeric_col_data;
      numeric_missing_count := col_missing_count |})
  else
    let counts := to_dict (value_counts col_data) in
    Return (OCategorical (length counts) counts col_missing_count).

Fixpoint analyze_columns_by (df : DataFrame) (names : list string)
    (column_info : list (string * ordered_entry)) : exc (list (string * ordered_entry)) :=
  match names with
  | [] => Return column_info
  | col_name :: rest =>
      col_data <- df_getitem df col_name;;
      entry <- column_profile_by col_data;;
      analyze_columns_by df rest (dict_set column_info col_name entry)
  end.

(** Lines 74-79. *)
Definition column_line_by (col_name : string) (info : ordered_entry) : string :=
  "- **" ++ col_name ++ "**: " ++
  match info with
  | ONumeric i =>
      "Numeric (Min: " ++ format_2f (info_min i) ++
      ", Max: " ++ format_2f (info_max i) ++
      ", Mean: " ++ format_2f (info_mean i) ++
      ", Median: " ++ format_2f (info_median i) ++
      ", Std Dev: " ++ format_2f (info_std i) ++
      ", Non-null: " ++ str_nat (info_count i) ++
      "). Missing: " ++ str_nat (numeric_missing_count i) ++ " values." ++ nl
  | OCategorical unique_values _ missing_count =>
      "Categorical (" ++ str_nat unique_values ++
      " unique values). Missing: " ++ str_nat missing_count ++
      " values." ++ nl
  end.

(** Lines 71-79. *)
Definition render_summary_by (num_rows num_cols missing_values_count : nat)
    (missing_percentage : Q) (column_info : list (string * ordered_entry)) : string :=
  let summary :=
    "The dataset contains " ++ str_nat num_rows ++ " rows and " ++
    str_nat num_cols ++ " columns." ++ nl in
  let summary := summary ++
    "Total missing values across the dataset: " ++ str_nat missing_values_count ++
    " (" ++ format_2f (Exact missing_percentage) ++ "% of all cells)." ++ nl ++ nl in
  let summary := summary ++ "Column Details:" ++ nl in
  fold_left (fun summary item => summary ++ column_line_by (fst item) (snd item))
    column_info summary.

(** Lines 30-85. *)
Definition analyze_frame_by (df : DataFrame) : exc ordered_report :=
  let '(num_rows, num_cols) := shape df in
  let missing_values_count := isnull_sum_sum df in
  let total_cells := num_rows * num_cols in
  pct <- missing_percentage missing_values_count total_cells;;
  info <- analyze_columns_by df (df_columns df) [];;
  Return {|
    o_row_count := num_rows;
    o_column_count := num_cols;
    o_total_missing := missing_values_count;
    o_percentage := pct;
    o_column_info := info;
    o_summary := render_summary_by num_rows num_cols missing_values_count pct info |}.

(** Lines 14-85. *)
Definition analyze_csv_data_by (csv_content : string)
    : exc (list (string * ordered_pyvalue)) :=
  match read_csv tokenize na_values csv_content with
  | inl e => Return [("error", OStr ("Failed to parse CSV: " ++ e))]
  | inr df =>
      r <- analyze_frame_by df;;
      Return [("summary", OStr (o_summary r));
              ("column_info", OColumnInfo (o_column_info r));
              ("dataframe", ODataFrame df)]
  end.

End OrderedRun.

(** A [to_dict] lists exactly the entries of the frequency map, in some
    order. *)
Definition lists_the_entries (to_dict : gmap string nat -> list (string * nat)) : Prop :=
  forall counts, Permutation (to_dict counts) (map_to_list counts).

(** Two entries that differ at most in the order of the keys of [counts]. *)
Definition same_entry (a b : ordered_entry) : Prop :=
  match a, b with
  | ONumeric i, ONumeric j => i = j
  | OCategorical u c m, OCategorical u' c' m' => u = u' /\ m = m' /\ Permutation c c'
  | _, _ => False
  end.

Definition same_column (a b : string * ordered_entry) : Prop :=
  fst a = fst b /\ same_entry (snd a) (snd b).

(** ** The upload (lines 93-100)

    The uploaded bytes are decoded before the analysis, outside any
    [try]: [decode] is [bytes.decode("utf-8")], [None] when it raises
    [UnicodeDecodeError].  The script then stops where it is, with the
    header drawn and nothing after it. *)
Inductive script_outcome :=
| Ran (o : outcome page)
| UnicodeDecodeError (drawn_before : page).

Section ScriptRun.

Variable str_to_number : string -> option Q.
Variable format_2f : stat -> string.
Variable tokenize : string -> string + token_table.
Variable na_values : list string.
Variable to_csv : DataFrame -> string.
Variable Inches : Q -> Z.
Variable slide_width slide_height : Z.
Variable context_text manual_steps_text : string.
Variable decode : list N -> option string.

Definition script (uploaded_file : option (list N)) (clicked : bool) : script_outcome :=
  match uploaded_file with
  | Some raw =>
      match decode raw with
      | Some csv_content =>
          Ran (app str_to_number format_2f tokenize na_values to_csv Inches
                   slide_width slide_height context_text manual_steps_text
                   (Some csv_content) clicked)
      | None => UnicodeDecodeError page_header
      end
  | None =>
      Ran (app str_to_number format_2f tokenize na_values to_csv Inches
               slide_width slide_height context_text manual_steps_text None clicked)
  end.

End ScriptRun.

(** Strict UTF-8, as Python decodes it: no overlong form, no surrogate,
    nothing above U+10FFFF.  Bytes are numbers below 256. *)
Module Utf8.

Definition continuation (b : N) : bool := (128 <=? b)%N && (b <=? 191)%N.

Fixpoint valid (fuel : nat) (bytes : list N) : bool :=
  match fuel with
  | 0 => match bytes with [] => true | _ => false end
  | S fuel =>
      match bytes with
      | [] => true
      | b :: rest =>
          if (b <=? 127)%N then valid fuel rest
          else if (194 <=? b)%N && (b <=? 223)%N then
            match rest with
            | c :: rest => continuation c && valid fuel rest
            | _ => false
            end
          else if (224 <=? b)%N && (b <=? 239)%N then
            match rest with
            | c :: d :: rest =>
                (if (b =? 224)%N then (160 <=? c)%N && (c <=? 191)%N
                 else if (b =? 237)%N then (128 <=? c)%N && (c <=? 159)%N
                 else continuation c)
                && continuation d && valid fuel rest
            | _ => false
            end
          else if (240 <=? b)%N && (b <=? 244)%N then
            match rest with
            | c :: d :: e :: rest =>
                (if (b =? 240)%N then (144 <=? c)%N && (c <=? 191)%N
                 else if (b =? 244)%N then (128 <=? c)%N && (c <=? 143)%N
                 else continuation c)
                && continuation d && continuation e && valid fuel rest
            | _ => false
            end
          else false
      end
  end.

Definition text_of (bytes : list N) : string :=
  fold_right (fun b s => String (ascii_of_N b) s) EmptyString bytes.

Definition decode (bytes : list N) : option string :=
  if forallb (fun b => (b <? 256)%N) bytes && valid (length bytes) bytes
  then Some (text_of bytes) else None.

Definition script :=
  script Plain.str_to_number Plain.format_2f Plain.tokenize Plain.STR_NA_VALUES
         PlainScript.to_csv PlainScript.Inches PlainScript.slide_width
         PlainScript.slide_height "" "" decode.

End Utf8.

Arguments column_profile str_to_number col_data : simpl never.

(** ** Facts about series *)

Section SeriesFacts.

Variable str_to_number : string -> option Q.

Lemma isnull_sum_cons (c : cell) (col : Series) :
  isnull_sum (c :: col) = (if isnull c then 1 else 0) + isnull_sum col.
Proof. unfold isnull_sum. destruct c; reflexivity. Qed.

Lemma raw_values_cons (c : cell) (col : Series) :
  raw_values (c :: col) =
  match raw_value c with
  | Some s => s :: raw_values col
  | None => raw_values col
  end.
Proof. reflexivity. Qed.

Lemma to_numeric_dropna_cons (c : cell) (col : Series) :
  to_numeric_dropna str_to_number (c :: col) =
  match to_numeric_coerce str_to_number c with
  | Some x => x :: to_numeric_dropna str_to_number col
  | None => to_numeric_dropna str_to_number col
  end.
Proof. reflexivity. Qed.

Lemma isnull_sum_le (col : Series) : isnull_sum col <= length col.
Proof.
  induction col as [|c col IH]; [reflexivity|].
  rewrite isnull_sum_cons. destruct c; simpl; lia.
Qed.

Lemma raw_values_length (col : Series) :
  length (raw_values col) = length col - isnull_sum col.
Proof.
  induction col as [|c col IH]; [reflexivity|].
  rewrite isnull_sum_cons. pose proof (isnull_sum_le col).
  unfold raw_values in *. destruct c; cbn in *; lia.
Qed.

(** A value that converts to a number is not missing. *)
Lemma numeric_le_non_missing (col : Series) :
  numeric_count str_to_number col <= non_missing_count col.
Proof.
  unfold numeric_count, non_missing_count, to_numeric_dropna.
  induction col as [|c col IH]; [simpl; lia|].
  rewrite isnull_sum_cons. pose proof (isnull_sum_le col).
  destruct c as [|s]; cbn in *; [lia|].
  destruct (str_to_number s); cbn; lia.
Qed.

Lemma all_missing_numeric_empty (col : Series) :
  Forall (fun c => c = NaN) col -> to_numeric_dropna str_to_number col = [].
Proof.
  induction 1 as [|c col Hc _ IH]; [reflexivity|].
  subst c. exact IH.
Qed.

Lemma all_missing_isnull_sum (col : Series) :
  Forall (fun c => c = NaN) col -> isnull_sum col = length col.
Proof.
  induction 1 as [|c col Hc _ IH]; [reflexivity|].
  subst c. rewrite isnull_sum_cons. simpl. lia.
Qed.

Lemma all_missing_raw_values (col : Series) :
  Forall (fun c => c = NaN) col -> raw_values col = [].
Proof.
  induction 1 as [|c col Hc _ IH]; [reflexivity|].
  subst c. exact IH.
Qed.

(** The test of the 80% rule, with the division it performs. *)
Lemma primarily_numeric_spec (col : Series) :
  primarily_numeric str_to_number col =
  Return (negb (Nat.eqb (numeric_count str_to_number col) 0) &&
          negb (Qle_bool (numeric_fraction str_to_number col) (8 # 10))).
Proof.
  unfold primarily_numeric, numeric_fraction.
  pose proof (numeric_le_non_missing col) as Hle.
  pose proof (isnull_sum_le col) as Hm.
  unfold numeric_count, non_missing_count in *.
  destruct (to_numeric_dropna str_to_number col) as [|x xs] eqn:E; [reflexivity|].
  cbn [length] in *. unfold truediv.
  rewrite <- Nat2Z.inj_sub by exact Hm.
  destruct (Z.eqb_spec (Z.of_nat (length col - isnull_sum col)) 0) as [H0|_]; [lia|].
  reflexivity.
Qed.

Lemma column_profile_returns (col : Series) :
  exists e, column_profile str_to_number col = Return e.
Proof.
  unfold column_profile. rewrite primarily_numeric_spec. cbn [bind].
  match goal with |- context [if ?b then _ else _] => destruct b end; eauto.
Qed.

Lemma column_profile_kind (col : Series) (e : column_entry) :
  column_profile str_to_number col = Return e ->
  is_numeric e =
  negb (Nat.eqb (numeric_count str_to_number col) 0) &&
  negb (Qle_bool (numeric_fraction str_to_number col) (8 # 10)).
Proof.
  unfold column_profile. rewrite primarily_numeric_spec. cbn [bind].
  match goal with |- context [if ?b then _ else _] => destruct b end;
    intros [= <-]; reflexivity.
Qed.

End SeriesFacts.

(** ** Facts about frequency maps *)

Section CountFacts.

Implicit Types (m : gmap string nat) (l : list string) (s : string).

Lemma occurrences_cons s x l :
  occurrences s (x :: l) = (if String.eqb s x then 1 else 0) + occurrences s l.
Proof. unfold occurrences. simpl. destruct (String.eqb s x); reflexivity. Qed.

Lemma occurrences_zero s l : occurrences s l = 0 <-> s ∉ l.
Proof.
  induction l as [|x l IH].
  - split; [intros _; apply not_elem_of_nil | reflexivity].
  - rewrite occurrences_cons, not_elem_of_cons.
    destruct (String.eqb_spec s x) as [->|Hne]; simpl.
    + split; [discriminate | intros [[] _]; reflexivity].
    + rewrite IH. tauto.
Qed.

Lemma counts_total_empty : counts_total ∅ = 0.
Proof. unfold counts_total. apply map_fold_empty. Qed.

Lemma counts_total_insert_fresh m s n :
  m !! s = None -> counts_total (<[s := n]> m) = n + counts_total m.
Proof.
  intros Hs. unfold counts_total.
  rewrite map_fold_insert_L; [reflexivity | intros; lia | exact Hs].
Qed.

Lemma counts_total_count_value m s :
  counts_total (count_value m s) = S (counts_total m).
Proof.
  unfold count_value. destruct (m !! s) as [n|] eqn:Hs; simpl.
  - rewrite <- insert_delete_eq.
    rewrite counts_total_insert_fresh by apply lookup_delete_eq.
    rewrite <- (insert_delete_id m s n Hs) at 2.
    rewrite counts_total_insert_fresh by apply lookup_delete_eq.
    reflexivity.
  - apply counts_total_insert_fresh. exact Hs.
Qed.

Lemma counts_total_foldl l m :
  counts_total (foldl count_value m l) = length l + counts_total m.
Proof.
  revert m. induction l as [|x l IH]; intros m; simpl; [reflexivity|].
  rewrite IH, counts_total_count_value. lia.
Qed.

Lemma count_value_positive m s : positive_counts m -> positive_counts (count_value m s).
Proof.
  intros Hm k n. unfold count_value.
  destruct (decide (s = k)) as [->|Hne].
  - rewrite lookup_insert_eq. intros [= <-]. lia.
  - rewrite lookup_insert_ne by exact Hne. apply Hm.
Qed.

Lemma foldl_count_positive l m :
  positive_counts m -> positive_counts (foldl count_value m l).
Proof.
  revert m. induction l as [|x l IH]; intros m Hm; simpl; [exact Hm|].
  apply IH, count_value_positive, Hm.
Qed.

Lemma count_value_lookup m s k :
  default 0 (count_value m s !! k) =
  (if String.eqb k s then 1 else 0) + default 0 (m !! k).
Proof.
  unfold count_value. destruct (String.eqb_spec k s) as [->|Hne].
  - rewrite lookup_insert_eq. reflexivity.
  - rewrite lookup_insert_ne by congruence. reflexivity.
Qed.

Lemma foldl_count_lookup l m k :
  default 0 (foldl count_value m l !! k) = occurrences k l + default 0 (m !! k).
Proof.
  revert m. induction l as [|x l IH]; intros m; simpl; [reflexivity|].
  rewrite IH, count_value_lookup, occurrences_cons. lia.
Qed.

Lemma foldl_count_dom l m :
  dom (foldl count_value m l) = list_to_set l ∪ dom m.
Proof.
  revert m. induction l as [|x l IH]; intros m; simpl.
  - rewrite (left_id_L ∅ (∪)). reflexivity.
  - rewrite IH. unfold count_value. rewrite dom_insert_L.
    rewrite (assoc_L (∪)), (comm_L (∪) (list_to_set l)). reflexivity.
Qed.

(** [value_counts] is the exact frequency map of the non-missing values. *)
Lemma value_counts_lookup (col : Series) s :
  value_counts col !! s =
  if Nat.eqb (occurrences s (raw_values col)) 0 then None
  else Some (occurrences s (raw_values col)).
Proof.
  unfold value_counts.
  pose proof (foldl_count_lookup (raw_values col) ∅ s) as Hn.
  pose proof (foldl_count_positive (raw_values col) ∅) as Hp.
  rewrite lookup_empty in Hn. simpl in Hn. rewrite Nat.add_0_r in Hn.
  destruct (foldl count_value ∅ (raw_values col) !! s) as [n|] eqn:E; simpl in Hn.
  - assert (0 < n) by (eapply Hp; [intros ? ?; rewrite lookup_empty; discriminate | exact E]).
    rewrite <- Hn. destruct (Nat.eqb_spec n 0); [lia | reflexivity].
  - rewrite <- Hn. reflexivity.
Qed.

Lemma value_counts_dom (col : Series) :
  dom (value_counts col) = list_to_set (raw_values col).
Proof.
  unfold value_counts. rewrite foldl_count_dom, dom_empty_L.
  apply (right_id_L ∅ (∪)).
Qed.

Lemma value_counts_total (col : Series) :
  counts_total (value_counts col) = length col - isnull_sum col.
Proof.
  unfold value_counts.
  rewrite counts_total_foldl, counts_total_empty.
  rewrite raw_values_length. lia.
Qed.

End CountFacts.

(** ** Facts about the analysis of a frame *)

Section FrameFacts.

Variable str_to_number : string -> option Q.
Variable format_2f : stat -> string.

Lemma df_getitem_returns (df : DataFrame) (col_name : string) :
  In col_name (df_columns df) ->
  exists col, df_getitem df col_name = Return col /\ In (col_name, col) (frame df).
Proof.
  unfold df_getitem, df_columns. intros Hin.
  destruct (List.find (fun c => String.eqb (fst c) col_name) (frame df)) as [[k col]|] eqn:E.
  - apply List.find_some in E as [Hc Hk]. simpl in Hk.
    apply String.eqb_eq in Hk. subst k. exists col. split; [reflexivity | exact Hc].
  - exfalso. apply List.in_map_iff in Hin as [c [Hc1 Hc2]].
    pose proof (List.find_none _ _ E c Hc2) as Hn. simpl in Hn.
    rewrite Hc1, String.eqb_refl in Hn. discriminate.
Qed.

Lemma analyze_columns_returns (df : DataFrame) (names : list string)
    (acc : list (string * column_entry)) :
  (forall n, In n names -> In n (df_columns df)) ->
  exists info, analyze_columns str_to_number df names acc = Return info.
Proof.
  revert acc. induction names as [|n names IH]; intros acc Hin; simpl.
  - eauto.
  - destruct (df_getitem_returns df n) as [col [-> _]]; [apply Hin; left; reflexivity|].
    cbn [bind].
    destruct (column_profile_returns str_to_number col) as [e ->].
    cbn [bind]. apply IH. intros k Hk. apply Hin. right. exact Hk.
Qed.

Lemma missing_percentage_spec (missing total : nat) :
  missing_percentage missing total =
  Return (if 0 <? total
          then (Qmake (Z.of_nat missing) 1 / Qmake (Z.of_nat total) 1 * 100)%Q
          else 0%Q).
Proof.
  unfold missing_percentage, truediv.
  destruct (Nat.ltb_spec 0 total) as [Hpos|_]; [|reflexivity].
  destruct (Z.eqb_spec (Z.of_nat total) 0) as [H0|_]; [lia | reflexivity].
Qed.

Lemma analyze_frame_returns (df : DataFrame) :
  exists info,
    analyze_columns str_to_number df (df_columns df) [] = Return info /\
    analyze_frame str_to_number format_2f df =
    Return {|
      row_count := index_len df;
      column_count := length (frame df);
      total_missing := isnull_sum_sum df;
      percentage :=
        (if 0 <? index_len df * length (frame df)
         then (Qmake (Z.of_nat (isnull_sum_sum df)) 1 /
               Qmake (Z.of_nat (index_len df * length (frame df))) 1 * 100)%Q
         else 0%Q);
      column_info := info;
      summary :=
        render_summary format_2f (index_len df) (length (frame df)) (isnull_sum_sum df)
          (if 0 <? index_len df * length (frame df)
           then (Qmake (Z.of_nat (isnull_sum_sum df)) 1 /
                 Qmake (Z.of_nat (index_len df * length (frame df))) 1 * 100)%Q
           else 0%Q) info |}.
Proof.
  destruct (analyze_columns_returns df (df_columns df) []) as [info Hinfo]; [auto|].
  exists info. split; [exact Hinfo|].
  unfold analyze_frame, shape. rewrite missing_percentage_spec. cbn [bind].
  rewrite Hinfo. reflexivity.
Qed.

End FrameFacts.

(** ** The 80% rule *)

Section Threshold.

(** Over a positive denominator the comparison with 0.8 is a comparison of
    integers. *)
Lemma ratio_exceeds_iff (n d : nat) :
  0 < d ->
  (8 # 10 < Qmake (Z.of_nat n) 1 / Qmake (Z.of_nat d) 1)%Q <-> 4 * d < 5 * n.
Proof.
  intros Hd.
  destruct (Z.of_nat d) as [|p|p] eqn:Ed; [lia | | lia].
  change (Qmake (Z.of_nat n) 1) with (inject_Z (Z.of_nat n)).
  change (Qmake (Z.pos p) 1) with (inject_Z (Z.pos p)).
  rewrite <- Qmake_Qdiv. unfold Qlt. simpl Qnum. simpl Qden.
  rewrite <- Ed. lia.
Qed.

Lemma threshold_test_iff (n d : nat) :
  0 < d ->
  negb (Nat.eqb n 0) &&
  negb (Qle_bool (Qmake (Z.of_nat n) 1 / Qmake (Z.of_nat d) 1) (8 # 10)) = true
  <-> 4 * d < 5 * n.
Proof.
  intros Hd. rewrite <- (ratio_exceeds_iff n d Hd).
  rewrite andb_true_iff, !negb_true_iff.
  split.
  - intros [_ H]. apply Qnot_le_lt. intros Hle.
    apply Qle_bool_iff in Hle. congruence.
  - intros H. split.
    + apply Nat.eqb_neq. intros ->. apply (ratio_exceeds_iff 0 d Hd) in H. lia.
    + apply not_true_iff_false. intros Hle. apply Qle_bool_iff in Hle.
      exact (Qlt_not_le _ _ H Hle).
Qed.

End Threshold.

(** For columns of up to 200 non-missing values the rounded binary64
    comparison and the exact one decide alike, the boundary 4/5 included. *)
Lemma float_ratio_agrees (n d : nat) :
  1 <= d <= 200 -> n <= d ->
  float_ratio_exceeds n d = exact_ratio_exceeds n d.
Proof.
  intros Hd Hn.
  assert (Hall : ratios_agree_upto 200 = true) by (vm_compute; reflexivity).
  unfold ratios_agree_upto in Hall.
  rewrite List.forallb_forall in Hall.
  specialize (Hall d). rewrite List.forallb_forall in Hall.
  apply Bool.eqb_prop. apply Hall.
  - apply List.in_seq. lia.
  - apply List.in_seq. lia.
Qed.

(** ** Column classification *)

Section Classification.

Variable str_to_number : string -> option Q.

Lemma non_missing_zero_all_missing (col : Series) :
  non_missing_count col = 0 -> Forall (fun c => c = NaN) col.
Proof.
  unfold non_missing_count.
  induction col as [|c col IH]; intros H; [constructor|].
  rewrite isnull_sum_cons in H. pose proof (isnull_sum_le col).
  destruct c; simpl in H; [|lia].
  constructor; [reflexivity | apply IH; lia].
Qed.

(** What the categorical branch stores. *)
Lemma column_profile_categorical (col : Series) (i : categorical_info) :
  column_profile str_to_number col = Return (Categorical i) ->
  i = {| unique_values := size (value_counts col);
         counts := value_counts col;
         categorical_missing_count := isnull_sum col |}.
Proof.
  unfold column_profile. rewrite primarily_numeric_spec. cbn [bind].
  match goal with |- context [if ?b then _ else _] => destruct b end;
    intros [= <-]; reflexivity.
Qed.

(** What the numeric branch stores. *)
Lemma column_profile_numeric (col : Series) (i : numeric_info) :
  column_profile str_to_number col = Return (Numeric i) ->
  i = {| info_min := series_min (to_numeric_dropna str_to_number col);
         info_max := series_max (to_numeric_dropna str_to_number col);
         info_mean := series_mean (to_numeric_dropna str_to_number col);
         info_median := series_median (to_numeric_dropna str_to_number col);
         info_std := series_std (to_numeric_dropna str_to_number col);
         info_count := length (to_numeric_dropna str_to_number col);
         numeric_missing_count := isnull_sum col |}.
Proof.
  unfold column_profile. rewrite primarily_numeric_spec. cbn [bind].
  match goal with |- context [if ?b then _ else _] => destruct b end;
    intros [= <-]; reflexivity.
Qed.

Lemma column_profile_missing_count (col : Series) (e : column_entry) :
  column_profile str_to_number col = Return e -> missing_count e = isnull_sum col.
Proof.
  destruct e as [i|i]; intros H.
  - apply column_profile_numeric in H. subst i. reflexivity.
  - apply column_profile_categorical in H. subst i. reflexivity.
Qed.

End Classification.

(** C1.  A column with at least one non-missing value is classified numeric
    exactly when the fraction of its non-missing values that convert to a
    number is strictly greater than 0.8; a column whose fraction is exactly
    0.8 (five times the numeric count is four times the non-missing count,
    as with 4 out of 5) is classified categorical. *)
Theorem numeric_iff_fraction_exceeds_threshold
    (str_to_number : string -> option Q) (col : Series) :
  0 < non_missing_count col ->
  exists e,
    column_profile str_to_number col = Return e /\
    (is_numeric e = true <-> (8 # 10 < numeric_fraction str_to_number col)%Q) /\
    (5 * numeric_count str_to_number col = 4 * non_missing_count col ->
     is_numeric e = false).
Proof.
  intros Hpos.
  destruct (column_profile_returns str_to_number col) as [e He].
  exists e. split; [exact He|].
  rewrite (column_profile_kind str_to_number col e He).
  unfold numeric_fraction. split.
  - rewrite threshold_test_iff by exact Hpos.
    rewrite ratio_exceeds_iff by exact Hpos. reflexivity.
  - intros Heq. apply not_true_iff_false.
    rewrite threshold_test_iff by exact Hpos. lia.
Qed.

Lemma numeric_iff_fraction_exceeds_threshold_witness :
  0 < non_missing_count [Str "1"; Str "2"; Str "3"; Str "4"; Str "x"] /\
  exists e,
    Plain.column_profile [Str "1"; Str "2"; Str "3"; Str "4"; Str "x"] = Return e /\
    is_numeric e = false.
Proof.
  assert (Hpos : 0 < non_missing_count [Str "1"; Str "2"; Str "3"; Str "4"; Str "x"])
    by (vm_compute; lia).
  split; [exact Hpos|].
  destruct (numeric_iff_fraction_exceeds_threshold Plain.str_to_number _ Hpos)
    as [e [He [_ Hboundary]]].
  exists e. split; [exact He | apply Hboundary; reflexivity].
Defined.

(** C2.  The classification of a column never divides by zero: it returns
    on every input.  When every value of the column is missing (the
    denominator of the fraction is 0) the series of converted numbers is
    empty, the test of the 80% rule is false without evaluating the
    division, and the column is categorical with no unique value and a
    missing count equal to the number of rows. *)
Theorem all_missing_column_is_categorical
    (str_to_number : string -> option Q) (col : Series) :
  (exists e, column_profile str_to_number col = Return e) /\
  (non_missing_count col = 0 ->
   to_numeric_dropna str_to_number col = [] /\
   primarily_numeric str_to_number col = Return false /\
   column_profile str_to_number col =
   Return (Categorical {| unique_values := 0;
                          counts := ∅;
                          categorical_missing_count := length col |})).
Proof.
  split; [apply column_profile_returns|].
  intros Hzero. apply non_missing_zero_all_missing in Hzero.
  pose proof (all_missing_numeric_empty str_to_number col Hzero) as Hnum.
  pose proof (all_missing_isnull_sum col Hzero) as Hmiss.
  pose proof (all_missing_raw_values col Hzero) as Hraw.
  assert (Htest : primarily_numeric str_to_number col = Return false).
  { unfold primarily_numeric. rewrite Hnum. reflexivity. }
  repeat split; [exact Hnum | exact Htest |].
  unfold column_profile. rewrite Htest. cbn [bind].
  unfold value_counts. rewrite Hraw, Hmiss. reflexivity.
Qed.

Lemma all_missing_column_is_categorical_witness :
  non_missing_count [NaN; NaN; NaN] = 0 /\
  Plain.column_profile [NaN; NaN; NaN] =
  Return (Categorical {| unique_values := 0;
                         counts := ∅;
                         categorical_missing_count := 3 |}).
Proof.
  assert (Hzero : non_missing_count [NaN; NaN; NaN] = 0) by reflexivity.
  split; [exact Hzero|].
  exact (proj2 (proj2 (proj2 (all_missing_column_is_categorical
                                Plain.str_to_number [NaN; NaN; NaN]) Hzero))).
Defined.

(** ** Statistics of a numeric column *)

(** pandas' [std] with its default [ddof] is the sample standard deviation. *)
Lemma series_std_sample_std (xs : list Q) : series_std xs = sample_std xs.
Proof.
  unfold series_std, nanstd, nanvar, sample_std, sample_variance, Qmean.
  destruct xs as [|x [|y xs]]; reflexivity.
Qed.

(** C5.  For a column classified numeric the reported standard deviation is
    the sample standard deviation (denominator n-1) of exactly the values
    that converted to a number, whose count is the reported count.  A
    column whose only non-missing value is a number is classified numeric
    without an error, and its standard deviation is NaN. *)
Theorem numeric_std_is_sample_std
    (str_to_number : string -> option Q) (col : Series) :
  (forall i, column_profile str_to_number col = Return (Numeric i) ->
     info_std i = sample_std (to_numeric_dropna str_to_number col) /\
     info_count i = numeric_count str_to_number col /\
     (numeric_count str_to_number col = 1 -> info_std i = SNaN)) /\
  (numeric_count str_to_number col = 1 -> non_missing_count col = 1 ->
   exists i, column_profile str_to_number col = Return (Numeric i) /\
             info_count i = 1 /\ info_std i = SNaN).
Proof.
  assert (Hone : numeric_count str_to_number col = 1 ->
                 sample_std (to_numeric_dropna str_to_number col) = SNaN).
  { unfold numeric_count.
    destruct (to_numeric_dropna str_to_number col) as [|x [|y xs]];
      simpl; intros H; try reflexivity; discriminate. }
  split.
  - intros i Hi. apply column_profile_numeric in Hi. subst i. simpl.
    rewrite series_std_sample_std. repeat split. exact Hone.
  - intros Hn Hd.
    destruct (column_profile_returns str_to_number col) as [e He].
    pose proof (column_profile_kind str_to_number col e He) as Hkind.
    assert (Hnum : is_numeric e = true).
    { rewrite Hkind. unfold numeric_fraction. rewrite Hn, Hd. reflexivity. }
    destruct e as [i|i]; [|discriminate].
    exists i. split; [exact He|].
    apply column_profile_numeric in He. subst i. simpl.
    rewrite series_std_sample_std. split; [exact Hn | apply Hone, Hn].
Qed.

Lemma numeric_std_is_sample_std_witness :
  exists i, Plain.column_profile [NaN; Str "5"] = Return (Numeric i) /\
            info_count i = 1 /\ info_std i = SNaN.
Proof.
  apply (proj2 (numeric_std_is_sample_std Plain.str_to_number [NaN; Str "5"]));
    reflexivity.
Defined.

(** ** Frequency counts of a categorical column *)

(** C6.  For a column classified categorical, [counts] maps every
    non-missing raw value to its number of occurrences under exact string
    equality and holds no other key, [unique_values] is the number of keys,
    which are the distinct non-missing values, and the counts sum to the
    row count minus the missing count. *)
Theorem categorical_counts_exact
    (str_to_number : string -> option Q) (df : DataFrame)
    (col_name : string) (col : Series) (i : categorical_info) :
  well_formed df ->
  In (col_name, col) (frame df) ->
  column_profile str_to_number col = Return (Categorical i) ->
  (forall s, counts i !! s =
             if Nat.eqb (occurrences s (raw_values col)) 0 then None
             else Some (occurrences s (raw_values col))) /\
  unique_values i = size (dom (counts i)) /\
  dom (counts i) = list_to_set (raw_values col) /\
  counts_total (counts i) = index_len df - categorical_missing_count i.
Proof.
  intros Hwf Hin Hi.
  apply column_profile_categorical in Hi. subst i. simpl.
  repeat split.
  - intros s. apply value_counts_lookup.
  - symmetry. apply size_dom.
  - apply value_counts_dom.
  - rewrite value_counts_total.
    unfold well_formed in Hwf. rewrite List.Forall_forall in Hwf.
    rewrite <- (Hwf _ Hin). reflexivity.
Qed.

Lemma categorical_counts_exact_witness :
  exists i,
    Plain.column_profile [Str "a"; Str "A"; NaN; Str "a"; Str " a"] =
    Return (Categorical i) /\
    counts i !! "a" = Some 2 /\ counts i !! "A" = Some 1 /\
    counts i !! " a" = Some 1 /\
    unique_values i = size (dom (counts i)) /\
    counts_total (counts i) = 5 - categorical_missing_count i.
Proof.
  pose (df := {| index_len := 5;
                 frame := [("c", [Str "a"; Str "A"; NaN; Str "a"; Str " a"])] |}).
  assert (Hwf : well_formed df) by (repeat constructor).
  assert (Hin : In ("c", [Str "a"; Str "A"; NaN; Str "a"; Str " a"]) (frame df))
    by (left; reflexivity).
  eexists. split; [vm_compute; reflexivity|].
  destruct (categorical_counts_exact Plain.str_to_number df "c" _ _ Hwf Hin eq_refl)
    as [Hlookup [Hsize [_ Htotal]]].
  exact (conj (Hlookup "a") (conj (Hlookup "A") (conj (Hlookup " a")
           (conj Hsize Htotal)))).
Defined.

(** ** The column loop over a frame with distinct column names *)

Section ColumnLoop.

Variable str_to_number : string -> option Q.

Lemma dict_set_fresh {V} (d : list (string * V)) (k : string) (v : V) :
  ~ In k (dict_keys d) -> dict_set d k v = (d ++ [(k, v)])%list.
Proof.
  induction d as [|[k' v'] d IH]; intros Hk; simpl; [reflexivity|].
  destruct (String.eqb_spec k' k) as [->|Hne].
  - exfalso. apply Hk. left. reflexivity.
  - rewrite IH; [reflexivity|]. intros Hin. apply Hk. right. exact Hin.
Qed.

Lemma df_getitem_unique (df : DataFrame) (c : string * Series) :
  List.NoDup (df_columns df) -> In c (frame df) ->
  df_getitem df (fst c) = Return (snd c).
Proof.
  unfold df_getitem, df_columns.
  induction (frame df) as [|[k col] cols IH]; intros Hnd Hin; [destruct Hin|].
  simpl in *. apply List.NoDup_cons_iff in Hnd as [Hk Hnd].
  destruct Hin as [<-|Hin]; simpl.
  - rewrite String.eqb_refl. reflexivity.
  - destruct (String.eqb_spec k (fst c)) as [->|Hne].
    + exfalso. apply Hk. apply List.in_map. exact Hin.
    + apply IH; assumption.
Qed.

Lemma analyze_columns_profiles (df : DataFrame) (cols : list (string * Series))
    (acc : list (string * column_entry)) :
  List.NoDup (df_columns df) ->
  (forall c, In c cols -> In c (frame df)) ->
  List.NoDup (dict_keys acc ++ map fst cols)%list ->
  exists entries,
    analyze_columns str_to_number df (map fst cols) acc = Return (acc ++ entries)%list /\
    profiles_of str_to_number cols entries.
Proof.
  intros Hnd. revert acc.
  induction cols as [|c cols IH]; intros acc Hin Hfresh; simpl.
  - exists []. rewrite List.app_nil_r. split; [reflexivity | constructor].
  - rewrite (df_getitem_unique df c Hnd) by (apply Hin; left; reflexivity).
    cbn [bind].
    destruct (column_profile_returns str_to_number (snd c)) as [e He].
    rewrite He. cbn [bind].
    assert (Hk : ~ In (fst c) (dict_keys acc)).
    { intros Hk. apply List.NoDup_remove_2 in Hfresh.
      apply Hfresh. apply List.in_or_app. left. exact Hk. }
    rewrite (dict_set_fresh acc (fst c) e Hk).
    destruct (IH (acc ++ [(fst c, e)])%list) as [entries [Hrun Hprof]].
    + intros c' Hc'. apply Hin. right. exact Hc'.
    + unfold dict_keys in *. rewrite List.map_app. simpl.
      rewrite <- List.app_assoc. exact Hfresh.
    + exists ((fst c, e) :: entries). split.
      * rewrite Hrun, <- List.app_assoc. reflexivity.
      * constructor; [split; [reflexivity | exact He] | exact Hprof].
Qed.

Lemma profiles_missing_sum (cols : list (string * Series))
    (info : list (string * column_entry)) :
  profiles_of str_to_number cols info ->
  list_sum (map (fun e => missing_count (snd e)) info) =
  list_sum (map (fun c => isnull_sum (snd c)) cols).
Proof.
  induction 1 as [|c e cols info [_ He] _ IH]; [reflexivity|].
  simpl. rewrite IH, (column_profile_missing_count str_to_number _ _ He).
  reflexivity.
Qed.

Lemma isnull_sum_sum_list_sum (df : DataFrame) :
  isnull_sum_sum df = list_sum (map (fun c => isnull_sum (snd c)) (frame df)).
Proof.
  unfold isnull_sum_sum. induction (frame df) as [|c cols IH]; [reflexivity|].
  simpl. rewrite IH. reflexivity.
Qed.

End ColumnLoop.

(** ** The report *)

(** C4.  The analysis of a frame returns a report whose missing percentage
    is the number of missing cells divided by rows times columns, times
    100, when the frame has at least one cell, and 0 when it has no row or
    no column; the division is never reached with a zero divisor.  The
    number of missing cells is the sum of the columns' missing counts,
    which for distinct column names are the [missing_count] fields of the
    report's entries. *)
Theorem missing_percentage_formula
    (str_to_number : string -> option Q) (format_2f : stat -> string)
    (df : DataFrame) :
  exists r,
    analyze_frame str_to_number format_2f df = Return r /\
    row_count r = index_len df /\
    column_count r = length (frame df) /\
    total_missing r = list_sum (map (fun c => isnull_sum (snd c)) (frame df)) /\
    (List.NoDup (df_columns df) ->
     total_missing r = list_sum (map (fun e => missing_count (snd e)) (column_info r))) /\
    (0 < row_count r * column_count r ->
     percentage r =
     (Qmake (Z.of_nat (total_missing r)) 1 /
      Qmake (Z.of_nat (row_count r * column_count r)) 1 * 100)%Q) /\
    (row_count r = 0 \/ column_count r = 0 -> percentage r = 0%Q).
Proof.
  destruct (analyze_frame_returns str_to_number format_2f df) as [info [Hinfo Hr]].
  eexists. split; [exact Hr|]. simpl.
  split; [reflexivity|]. split; [reflexivity|].
  split; [apply isnull_sum_sum_list_sum|].
  split; [|split].
  - intros Hnd.
    destruct (analyze_columns_profiles str_to_number df (frame df) [] Hnd)
      as [entries [Hrun Hprof]]; [auto | exact Hnd |].
    unfold df_columns in Hinfo. rewrite Hrun in Hinfo. injection Hinfo as <-.
    simpl. rewrite (profiles_missing_sum str_to_number _ _ Hprof).
    apply isnull_sum_sum_list_sum.
  - intros Hpos. apply Nat.ltb_lt in Hpos. rewrite Hpos. reflexivity.
  - intros Hzero.
    assert (Hcells : (0 <? index_len df * length (frame df)) = false)
      by (apply Nat.ltb_ge; destruct Hzero as [-> | ->]; lia).
    rewrite Hcells. reflexivity.
Qed.

Lemma missing_percentage_formula_witness :
  exists r,
    analyze_frame Plain.str_to_number Plain.format_2f
      {| index_len := 2; frame := [("a", [Str "1"; NaN]); ("b", [NaN; NaN])] |} = Return r /\
    total_missing r = 3 /\
    percentage r = (Qmake 3 1 / Qmake 4 1 * 100)%Q.
Proof.
  destruct (missing_percentage_formula Plain.str_to_number Plain.format_2f
              {| index_len := 2; frame := [("a", [Str "1"; NaN]); ("b", [NaN; NaN])] |})
    as [r [Hr [Hrows [Hcols [Hmissing [_ [Hpct _]]]]]]].
  exists r. split; [exact Hr|]. split; [exact Hmissing|].
  rewrite Hpct; rewrite Hrows, Hcols, ?Hmissing; [reflexivity | simpl; lia].
Defined.

(** C7.  When reading the text fails, the analysis returns the dictionary
    whose only key is ["error"], holding the reason; it has no summary, no
    column information and no frame. *)
Theorem parse_failure_returns_only_error
    (str_to_number : string -> option Q) (format_2f : stat -> string)
    (tokenize : string -> string + token_table) (na_values : list string)
    (csv_content reason : string) :
  read_csv tokenize na_values csv_content = inl reason ->
  exists out,
    analyze_csv_data str_to_number format_2f tokenize na_values csv_content = Return out /\
    out = [("error", PStr ("Failed to parse CSV: " ++ reason))] /\
    dict_keys out = ["error"] /\
    dict_get out "summary" = None /\
    dict_get out "column_info" = None /\
    dict_get out "dataframe" = None.
Proof.
  intros Hfail. eexists. split.
  - unfold analyze_csv_data. rewrite Hfail. reflexivity.
  - repeat split.
Qed.

Lemma parse_failure_returns_only_error_witness :
  Plain.read_csv "" = inl "No columns to parse from file" /\
  exists out,
    Plain.analyze_csv_data "" = Return out /\
    out = [("error", PStr "Failed to parse CSV: No columns to parse from file")] /\
    dict_get out "summary" = None.
Proof.
  assert (Hfail : Plain.read_csv "" = inl "No columns to parse from file")
    by reflexivity.
  split; [exact Hfail|].
  destruct (parse_failure_returns_only_error Plain.str_to_number Plain.format_2f
              Plain.tokenize Plain.STR_NA_VALUES "" _ Hfail)
    as [out [Hout [Hdict [_ [Hsummary _]]]]].
  exists out. split; [exact Hout|]. split; [exact Hdict | exact Hsummary].
Defined.

(** ** NA markers *)

Section NaMarkers.

Variable str_to_number : string -> option Q.
Variable na_values : list string.

Lemma convert_column_nth (tokens : list string) (i : nat) (token : string) :
  nth_error tokens i = Some token ->
  nth_error (convert_column na_values tokens) i = Some (cell_of_token na_values token).
Proof. intros H. unfold convert_column. apply List.map_nth_error. exact H. Qed.

Lemma convert_column_isnull_sum (tokens : list string) :
  isnull_sum (convert_column na_values tokens) = length (na_tokens na_values tokens).
Proof.
  unfold na_tokens. induction tokens as [|t tokens IH]; [reflexivity|].
  change (convert_column na_values (t :: tokens))
    with (cell_of_token na_values t :: convert_column na_values tokens).
  rewrite isnull_sum_cons, IH. simpl. unfold cell_of_token.
  destruct (is_na na_values t); reflexivity.
Qed.

Lemma convert_column_raw_values (tokens : list string) :
  raw_values (convert_column na_values tokens) = present_tokens na_values tokens.
Proof.
  unfold present_tokens.
  induction tokens as [|t tokens IH]; [reflexivity|].
  change (convert_column na_values (t :: tokens))
    with (cell_of_token na_values t :: convert_column na_values tokens).
  rewrite raw_values_cons, IH. simpl. unfold cell_of_token.
  destruct (is_na na_values t); reflexivity.
Qed.

Lemma convert_column_non_missing (tokens : list string) :
  non_missing_count (convert_column na_values tokens) =
  length (present_tokens na_values tokens).
Proof.
  unfold non_missing_count.
  rewrite <- raw_values_length, convert_column_raw_values. reflexivity.
Qed.

Lemma convert_column_non_numeric (tokens : list string) :
  non_missing_count (convert_column na_values tokens) -
  numeric_count str_to_number (convert_column na_values tokens) =
  length (non_numeric_tokens str_to_number na_values tokens).
Proof.
  rewrite convert_column_non_missing.
  unfold numeric_count, non_numeric_tokens, present_tokens.
  induction tokens as [|t tokens IH]; [reflexivity|].
  change (convert_column na_values (t :: tokens))
    with (cell_of_token na_values t :: convert_column na_values tokens).
  pose proof (numeric_le_non_missing str_to_number (convert_column na_values tokens)) as Hle.
  rewrite convert_column_non_missing in Hle.
  unfold numeric_count, present_tokens in Hle.
  rewrite to_numeric_dropna_cons. unfold cell_of_token. simpl List.filter.
  destruct (is_na na_values t); simpl; [exact IH|].
  destruct (str_to_number t); simpl; lia.
Qed.

Lemma na_token_not_counted (tokens : list string) (k : string) :
  is_na na_values k = true ->
  value_counts (convert_column na_values tokens) !! k = None.
Proof.
  intros Hk. rewrite value_counts_lookup, convert_column_raw_values.
  assert (Hocc : occurrences k (present_tokens na_values tokens) = 0).
  { apply occurrences_zero. rewrite list_elem_of_In. unfold present_tokens.
    rewrite List.filter_In. intros [_ Hpresent]. rewrite Hk in Hpresent. discriminate. }
  rewrite Hocc. reflexivity.
Qed.

End NaMarkers.

(** C9.  A field that is one of the NA markers is read as the missing
    marker.  In the column read from the fields of one header name every
    such field adds one to the missing count, is left out of the
    denominator of the numeric fraction, is not among the non-numeric
    values weighed by the 80% rule, and is never a key of the frequency
    counts of a categorical column. *)
Theorem na_tokens_are_missing
    (str_to_number : string -> option Q)
    (tokenize : string -> string + token_table) (na_values : list string)
    (csv_content : string) (t : token_table) (name : string) (tokens : list string) :
  tokenize csv_content = inr t ->
  In (name, tokens) (fields t) ->
  exists df col e,
    read_csv tokenize na_values csv_content = inr df /\
    In (name, col) (frame df) /\
    col = convert_column na_values tokens /\
    (forall i token, nth_error tokens i = Some token ->
                     is_na na_values token = true -> nth_error col i = Some NaN) /\
    column_profile str_to_number col = Return e /\
    missing_count e = length (na_tokens na_values tokens) /\
    non_missing_count col = length (present_tokens na_values tokens) /\
    non_missing_count col - numeric_count str_to_number col =
      length (non_numeric_tokens str_to_number na_values tokens) /\
    (forall i k, e = Categorical i -> is_na na_values k = true -> counts i !! k = None).
Proof.
  intros Htok Hin.
  destruct (column_profile_returns str_to_number (convert_column na_values tokens))
    as [e He].
  eexists _, (convert_column na_values tokens), e.
  split; [unfold read_csv; rewrite Htok; reflexivity|].
  split.
  { simpl. apply List.in_map_iff. exists (name, tokens). split; [reflexivity | exact Hin]. }
  split; [reflexivity|].
  split.
  { intros i token Hi Hna. rewrite (convert_column_nth na_values tokens i token Hi).
    unfold cell_of_token. rewrite Hna. reflexivity. }
  split; [exact He|].
  split.
  { rewrite (column_profile_missing_count str_to_number _ _ He).
    apply convert_column_isnull_sum. }
  split; [apply convert_column_non_missing|].
  split; [apply convert_column_non_numeric|].
  intros i k -> Hk. apply column_profile_categorical in He. subst i. simpl.
  apply na_token_not_counted. exact Hk.
Qed.

Lemma na_tokens_are_missing_witness :
  exists df col e,
    Plain.read_csv ("a,b" ++ nl ++ "1,NA" ++ nl ++ ",x" ++ nl ++ "N/A,null") = inr df /\
    In ("b", col) (frame df) /\
    col = [NaN; Str "x"; NaN] /\
    Plain.column_profile col = Return e /\
    missing_count e = 2 /\
    non_missing_count col = 1.
Proof.
  destruct (na_tokens_are_missing Plain.str_to_number Plain.tokenize Plain.STR_NA_VALUES
              ("a,b" ++ nl ++ "1,NA" ++ nl ++ ",x" ++ nl ++ "N/A,null")
              {| records := 3;
                 fields := [("a", ["1"; ""; "N/A"]); ("b", ["NA"; "x"; "null"])] |}
              "b" ["NA"; "x"; "null"] eq_refl (or_intror (or_introl eq_refl)))
    as [df [col [e [Hdf [Hin [Hcol [_ [He [Hmissing [Hpresent _]]]]]]]]]].
  exists df, col, e.
  exact (conj Hdf (conj Hin (conj Hcol (conj He (conj Hmissing Hpresent))))).
Defined.

(** ** Runs on small inputs *)

(** Five numbers out of six non-missing values are above the threshold. *)
Example five_of_six_is_numeric :
  is_numeric <$> match Plain.column_profile
                         [Str "1"; Str "2"; NaN; Str "3"; Str "4"; Str "5"; Str "x"] with
                 | Return e => Some e
                 | Raise _ => None
                 end = Some true.
Proof. vm_compute. reflexivity. Qed.

(** A numeric and a textual column, three records. *)
Example two_columns_summary :
  exists info df,
    Plain.analyze_csv_data ("a,b" ++ nl ++ "1,x" ++ nl ++ "2,y" ++ nl ++ "3,z" ++ nl) =
    Return [("summary",
             PStr ("The dataset contains 3 rows and 2 columns." ++ nl ++
                   "Total missing values across the dataset: 0 (0.00% of all cells)." ++ nl ++ nl ++
                   "Column Details:" ++ nl ++
                   "- **a**: Numeric (Min: 1.00, Max: 3.00, Mean: 2.00, Median: 2.00, Std Dev: 1.00, Non-null: 3). Missing: 0 values." ++ nl ++
                   "- **b**: Categorical (3 unique values). Missing: 0 values." ++ nl));
            ("column_info", PColumnInfo info);
            ("dataframe", PDataFrame df)].
Proof. eexists _, _. vm_compute. reflexivity. Qed.

(** ** Further facts about the classification of a column *)

Section ClassificationMore.

Variable str_to_number : string -> option Q.

Lemma all_convert_numeric_count (col : Series) :
  Forall (fun c => c = NaN \/ exists x, to_numeric_coerce str_to_number c = Some x) col ->
  numeric_count str_to_number col = non_missing_count col.
Proof.
  unfold numeric_count, non_missing_count.
  induction 1 as [|c col Hc _ IH]; [reflexivity|].
  rewrite to_numeric_dropna_cons, isnull_sum_cons.
  pose proof (isnull_sum_le col).
  destruct Hc as [-> | [x Hx]].
  - simpl. exact IH.
  - rewrite Hx. destruct c; [discriminate|]. simpl in *. lia.
Qed.

Lemma none_convert_numeric_count (col : Series) :
  Forall (fun c => to_numeric_coerce str_to_number c = None) col ->
  numeric_count str_to_number col = 0.
Proof.
  unfold numeric_count.
  induction 1 as [|c col Hc _ IH]; [reflexivity|].
  rewrite to_numeric_dropna_cons, Hc. exact IH.
Qed.

(** The kind of the entry, as a comparison of the two counts. *)
Lemma column_profile_kind_counts (col : Series) (e : column_entry) :
  column_profile str_to_number col = Return e ->
  is_numeric e = true <->
  4 * non_missing_count col < 5 * numeric_count str_to_number col.
Proof.
  intros He. rewrite (column_profile_kind str_to_number col e He).
  pose proof (numeric_le_non_missing str_to_number col) as Hle.
  destruct (Nat.eq_dec (non_missing_count col) 0) as [Hz|Hnz].
  - assert (Hn : numeric_count str_to_number col = 0) by lia.
    rewrite Hn, Hz. simpl. split; [discriminate | lia].
  - unfold numeric_fraction. apply threshold_test_iff. lia.
Qed.

End ClassificationMore.

(** X1.  A column with at least one non-missing value, all of whose
    non-missing values convert to a number, is classified numeric; its
    count is the number of non-missing values and count and missing count
    add up to the number of rows. *)
Theorem all_numeric_column_is_numeric
    (str_to_number : string -> option Q) (col : Series) :
  0 < non_missing_count col ->
  Forall (fun c => c = NaN \/ exists x, to_numeric_coerce str_to_number c = Some x) col ->
  exists i,
    column_profile str_to_number col = Return (Numeric i) /\
    info_count i = non_missing_count col /\
    info_count i + numeric_missing_count i = length col.
Proof.
  intros Hpos Hall.
  pose proof (all_convert_numeric_count str_to_number col Hall) as Hcount.
  destruct (column_profile_returns str_to_number col) as [e He].
  assert (Hkind : is_numeric e = true).
  { apply (column_profile_kind_counts str_to_number col e He). lia. }
  destruct e as [i|i]; [|discriminate].
  exists i. split; [exact He|].
  apply column_profile_numeric in He. subst i. simpl.
  fold (numeric_count str_to_number col). rewrite Hcount.
  split; [reflexivity|].
  unfold non_missing_count. pose proof (isnull_sum_le col). lia.
Qed.

Lemma all_numeric_column_is_numeric_witness :
  exists i,
    Plain.column_profile [Str "7"; NaN; Str "-3"; Str "12"] = Return (Numeric i) /\
    info_count i = 3 /\
    info_count i + numeric_missing_count i = 4.
Proof.
  apply (all_numeric_column_is_numeric Plain.str_to_number
           [Str "7"; NaN; Str "-3"; Str "12"]).
  - vm_compute. lia.
  - repeat (apply List.Forall_cons;
            [first [left; reflexivity | right; eexists; reflexivity]|]).
    apply List.Forall_nil.
Defined.

(** X2.  A column none of whose values converts to a number is classified
    categorical, whatever its length and whatever is missing. *)
Theorem no_numeric_value_is_categorical
    (str_to_number : string -> option Q) (col : Series) :
  Forall (fun c => to_numeric_coerce str_to_number c = None) col ->
  exists i,
    column_profile str_to_number col = Return (Categorical i) /\
    counts i = value_counts col /\
    categorical_missing_count i = isnull_sum col.
Proof.
  intros Hnone.
  pose proof (none_convert_numeric_count str_to_number col Hnone) as Hcount.
  destruct (column_profile_returns str_to_number col) as [e He].
  pose proof (column_profile_kind_counts str_to_number col e He) as Hkind.
  destruct e as [i|i].
  - exfalso. simpl in Hkind. rewrite Hcount in Hkind.
    assert (4 * non_missing_count col < 5 * 0) by (apply Hkind; reflexivity). lia.
  - exists i. split; [exact He|].
    apply column_profile_categorical in He. subst i. split; reflexivity.
Qed.

Lemma no_numeric_value_is_categorical_witness :
  exists i,
    Plain.column_profile [Str "x"; NaN; Str "1.5e"; Str "y"] = Return (Categorical i) /\
    counts i = value_counts [Str "x"; NaN; Str "1.5e"; Str "y"] /\
    categorical_missing_count i = 1.
Proof.
  apply (no_numeric_value_is_categorical Plain.str_to_number
           [Str "x"; NaN; Str "1.5e"; Str "y"]).
  repeat constructor.
Defined.

(** ** Facts about the statistics of a numeric column *)

Section StatFacts.

Lemma Qmin_cases (x y : Q) : Qmin x y = x \/ Qmin x y = y.
Proof. unfold Qmin, GenericMinMax.gmin. destruct (x ?= y)%Q; auto. Qed.

Lemma Qmax_cases (x y : Q) : Qmax x y = x \/ Qmax x y = y.
Proof. unfold Qmax, GenericMinMax.gmax. destruct (x ?= y)%Q; auto. Qed.

Lemma fold_min_spec (rest : list Q) (x : Q) :
  In (fold_left Qmin rest x) (x :: rest) /\
  forall y, In y (x :: rest) -> (fold_left Qmin rest x <= y)%Q.
Proof.
  revert x. induction rest as [|z rest IH]; intros x; simpl.
  - split; [left; reflexivity|]. intros y [<-|[]]. apply Qle_refl.
  - destruct (IH (Qmin x z)) as [Hin Hle]. split.
    + destruct Hin as [Hin|Hin]; [|right; right; exact Hin].
      rewrite <- Hin.
      destruct (Qmin_cases x z) as [E|E]; rewrite E;
        [left | right; left]; reflexivity.
    + intros y [<-|[<-|Hy]].
      * eapply Qle_trans; [apply Hle; left; reflexivity | apply Q.le_min_l].
      * eapply Qle_trans; [apply Hle; left; reflexivity | apply Q.le_min_r].
      * apply Hle. right. exact Hy.
Qed.

Lemma fold_max_spec (rest : list Q) (x : Q) :
  In (fold_left Qmax rest x) (x :: rest) /\
  forall y, In y (x :: rest) -> (y <= fold_left Qmax rest x)%Q.
Proof.
  revert x. induction rest as [|z rest IH]; intros x; simpl.
  - split; [left; reflexivity|]. intros y [<-|[]]. apply Qle_refl.
  - destruct (IH (Qmax x z)) as [Hin Hle]. split.
    + destruct Hin as [Hin|Hin]; [|right; right; exact Hin].
      rewrite <- Hin.
      destruct (Qmax_cases x z) as [E|E]; rewrite E;
        [left | right; left]; reflexivity.
    + intros y [<-|[<-|Hy]].
      * eapply Qle_trans; [apply Q.le_max_l | apply Hle; left; reflexivity].
      * eapply Qle_trans; [apply Q.le_max_r | apply Hle; left; reflexivity].
      * apply Hle. right. exact Hy.
Qed.

End StatFacts.

(** X3.  For a column classified numeric, the count is at least one and
    more than four fifths of the non-missing values, and count and missing
    count do not exceed the number of rows.  Minimum and maximum are
    numbers (never NaN): each is one of the converted values of the
    column, and every converted value lies between them. *)
Theorem numeric_entry_statistics
    (str_to_number : string -> option Q) (col : Series) (i : numeric_info) :
  column_profile str_to_number col = Return (Numeric i) ->
  1 <= info_count i /\
  info_count i + numeric_missing_count i <= length col /\
  4 * (length col - numeric_missing_count i) < 5 * info_count i /\
  exists lo hi,
    info_min i = Exact lo /\ info_max i = Exact hi /\
    In lo (to_numeric_dropna str_to_number col) /\
    In hi (to_numeric_dropna str_to_number col) /\
    (forall x, In x (to_numeric_dropna str_to_number col) -> (lo <= x <= hi)%Q).
Proof.
  intros He.
  pose proof (column_profile_kind_counts str_to_number col _ He) as Hkind.
  pose proof (numeric_le_non_missing str_to_number col) as Hle.
  pose proof (isnull_sum_le col) as Hmiss.
  assert (Hratio : 4 * non_missing_count col < 5 * numeric_count str_to_number col)
    by (apply Hkind; reflexivity).
  apply column_profile_numeric in He. subst i. simpl.
  unfold numeric_count, non_missing_count in *.
  split; [lia|]. split; [lia|]. split; [exact Hratio|].
  destruct (to_numeric_dropna str_to_number col) as [|x xs] eqn:E;
    [simpl in Hratio; lia|].
  destruct (fold_min_spec xs x) as [Hmin_in Hmin_le].
  destruct (fold_max_spec xs x) as [Hmax_in Hmax_le].
  exists (fold_left Qmin xs x), (fold_left Qmax xs x).
  split; [reflexivity|]. split; [reflexivity|].
  split; [exact Hmin_in|]. split; [exact Hmax_in|].
  intros y Hy. split; [apply Hmin_le | apply Hmax_le]; exact Hy.
Qed.

Lemma numeric_entry_statistics_witness :
  exists i lo hi,
    Plain.column_profile [Str "4"; Str "-2"; NaN; Str "9"] = Return (Numeric i) /\
    info_min i = Exact lo /\ info_max i = Exact hi /\ (lo <= hi)%Q /\
    info_count i + numeric_missing_count i <= 4.
Proof.
  eexists.
  destruct (numeric_entry_statistics Plain.str_to_number
              [Str "4"; Str "-2"; NaN; Str "9"] _ eq_refl)
    as [_ [Hrows [_ [lo [hi [Hlo [Hhi [Hin [_ Hall]]]]]]]]].
  exists lo, hi. split; [reflexivity|]. split; [exact Hlo|]. split; [exact Hhi|].
  split; [|exact Hrows].
  exact (Qle_trans _ _ _ (proj1 (Hall lo Hin)) (proj2 (Hall lo Hin))).
Defined.

(** ** Further facts about frequency counts *)

Section CountMore.

Lemma foldl_count_size (l : list string) (m : gmap string nat) :
  size (foldl count_value m l) <= length l + size m.
Proof.
  revert m. induction l as [|x l IH]; intros m; cbn [foldl length]; [lia|].
  etransitivity; [apply IH|]. unfold count_value.
  rewrite map_size_insert. destruct (m !! x); unfold id; lia.
Qed.

Lemma value_counts_size_le (col : Series) :
  size (value_counts col) <= length col - isnull_sum col.
Proof.
  unfold value_counts. rewrite <- raw_values_length.
  etransitivity; [apply foldl_count_size|]. rewrite map_size_empty. lia.
Qed.

Lemma occurrences_head (s : string) (l : list string) : 1 <= occurrences s (s :: l).
Proof. rewrite occurrences_cons, String.eqb_refl. lia. Qed.

Lemma value_counts_size_zero (col : Series) :
  size (value_counts col) = 0 <-> length col = isnull_sum col.
Proof.
  pose proof (raw_values_length col) as Hlen.
  pose proof (isnull_sum_le col) as Hle.
  rewrite map_size_empty_iff. split.
  - intros Hempty. destruct (raw_values col) as [|s l] eqn:E; [simpl in Hlen; lia|].
    exfalso. pose proof (value_counts_lookup col s) as Hs.
    rewrite Hempty, lookup_empty, E in Hs.
    pose proof (occurrences_head s l).
    destruct (Nat.eqb_spec (occurrences s (s :: l)) 0); [lia | discriminate].
  - intros Hall. unfold value_counts.
    destruct (raw_values col) as [|s l]; [reflexivity | simpl in Hlen; lia].
Qed.

Lemma raw_value_in_column (col : Series) (s : string) :
  In s (raw_values col) -> In (Str s) col.
Proof.
  induction col as [|c col IH]; [intros []|].
  rewrite raw_values_cons. destruct c as [|s']; simpl.
  - intros H. right. apply IH, H.
  - intros [->|H]; [left; reflexivity | right; apply IH, H].
Qed.

Lemma value_counts_key (col : Series) (s : string) (n : nat) :
  value_counts col !! s = Some n ->
  n = occurrences s (raw_values col) /\ 1 <= n /\ In (Str s) col.
Proof.
  rewrite value_counts_lookup.
  destruct (Nat.eqb_spec (occurrences s (raw_values col)) 0) as [|Hne]; [discriminate|].
  intros [= <-]. split; [reflexivity|]. split; [lia|].
  apply raw_value_in_column.
  destruct (decide (s ∈ raw_values col)) as [Hin|Hout].
  - apply list_elem_of_In. exact Hin.
  - apply occurrences_zero in Hout. contradiction.
Qed.

Lemma filter_length_Permutation {A} (f : A -> bool) (l l' : list A) :
  Permutation l l' -> length (List.filter f l) = length (List.filter f l').
Proof.
  induction 1 as [|x l l' _ IH|x y l|l l' l'' _ IH1 _ IH2]; simpl.
  - reflexivity.
  - destruct (f x); simpl; congruence.
  - destruct (f x), (f y); reflexivity.
  - congruence.
Qed.

Lemma value_counts_Permutation (col col' : Series) :
  Permutation col col' -> value_counts col = value_counts col'.
Proof.
  intros Hperm. apply map_eq. intros s. rewrite !value_counts_lookup.
  assert (Hocc : occurrences s (raw_values col) = occurrences s (raw_values col')).
  { unfold occurrences. apply filter_length_Permutation.
    unfold raw_values. apply omap_Permutation. exact Hperm. }
  rewrite Hocc. reflexivity.
Qed.

End CountMore.

(** X4.  For a column classified categorical, the number of unique values
    is at most the number of non-missing values and is 0 exactly when every
    value is missing; every key of the counts is a value of the column and
    has a count of at least one; and at most four fifths of the
    non-missing values convert to a number. *)
Theorem categorical_entry_bounds
    (str_to_number : string -> option Q) (col : Series) (i : categorical_info) :
  column_profile str_to_number col = Return (Categorical i) ->
  unique_values i <= length col - categorical_missing_count i /\
  (unique_values i = 0 <-> length col = categorical_missing_count i) /\
  (forall s n, counts i !! s = Some n -> 1 <= n /\ In (Str s) col) /\
  5 * numeric_count str_to_number col <= 4 * (length col - categorical_missing_count i).
Proof.
  intros He.
  pose proof (column_profile_kind_counts str_to_number col _ He) as Hkind.
  apply column_profile_categorical in He. subst i. simpl in *.
  split; [apply value_counts_size_le|].
  split; [apply value_counts_size_zero|].
  split.
  - intros s n Hs. apply value_counts_key in Hs. tauto.
  - unfold non_missing_count in Hkind.
    destruct (Nat.le_gt_cases (5 * numeric_count str_to_number col)
                (4 * (length col - isnull_sum col))) as [Hle|Hgt]; [exact Hle|].
    apply Hkind in Hgt. discriminate.
Qed.

Lemma categorical_entry_bounds_witness :
  exists i,
    Plain.column_profile [Str "b"; NaN; Str "b"; Str "3"] = Return (Categorical i) /\
    unique_values i <= 4 - categorical_missing_count i /\
    5 * numeric_count Plain.str_to_number [Str "b"; NaN; Str "b"; Str "3"] <=
    4 * (4 - categorical_missing_count i).
Proof.
  eexists.
  destruct (categorical_entry_bounds Plain.str_to_number
              [Str "b"; NaN; Str "b"; Str "3"] _ eq_refl)
    as [Hunique [_ [_ Hshare]]].
  split; [reflexivity|]. exact (conj Hunique Hshare).
Defined.

(** X5.  The classification of a column does not depend on the order of
    its rows: two columns with the same cells in a different order get the
    same kind and the same missing count; a categorical entry is the same
    entry, and a numeric one has the same count. *)
Theorem profile_ignores_row_order
    (str_to_number : string -> option Q) (col col' : Series) (e e' : column_entry) :
  Permutation col col' ->
  column_profile str_to_number col = Return e ->
  column_profile str_to_number col' = Return e' ->
  is_numeric e = is_numeric e' /\
  missing_count e = missing_count e' /\
  (is_numeric e = false -> e' = e) /\
  (forall i i', e = Numeric i -> e' = Numeric i' -> info_count i = info_count i').
Proof.
  intros Hperm He He'.
  assert (Hmiss : isnull_sum col = isnull_sum col')
    by (apply filter_length_Permutation, Hperm).
  assert (Hlen : length col = length col') by (apply Permutation_length, Hperm).
  assert (Hnum : numeric_count str_to_number col = numeric_count str_to_number col').
  { unfold numeric_count, to_numeric_dropna.
    apply Permutation_length, omap_Permutation, Hperm. }
  assert (Hkind : is_numeric e = is_numeric e').
  { pose proof (column_profile_kind_counts str_to_number col e He) as H.
    pose proof (column_profile_kind_counts str_to_number col' e' He') as H'.
    unfold non_missing_count in *. rewrite <- Hmiss, <- Hlen, <- Hnum in H'.
    destruct (is_numeric e), (is_numeric e'); try reflexivity.
    - symmetry. apply H'. apply H. reflexivity.
    - apply H. apply H'. reflexivity. }
  split; [exact Hkind|]. split; [|split].
  - rewrite (column_profile_missing_count str_to_number col e He).
    rewrite (column_profile_missing_count str_to_number col' e' He').
    exact Hmiss.
  - intros Hcat. rewrite Hcat in Hkind.
    destruct e as [i|i]; [discriminate|]. destruct e' as [i'|i']; [discriminate|].
    apply column_profile_categorical in He, He'. subst i i'.
    rewrite (value_counts_Permutation col col' Hperm), Hmiss. reflexivity.
  - intros i i' -> ->.
    apply column_profile_numeric in He, He'. subst i i'. exact Hnum.
Qed.

Lemma profile_ignores_row_order_witness :
  Plain.column_profile [Str "x"; NaN; Str "y"] =
  Plain.column_profile [NaN; Str "y"; Str "x"].
Proof.
  assert (Hperm : Permutation [Str "x"; NaN; Str "y"] [NaN; Str "y"; Str "x"]).
  { apply perm_trans with (l' := [NaN; Str "x"; Str "y"]);
      [apply perm_swap | apply perm_skip, perm_swap]. }
  destruct (Plain.column_profile [Str "x"; NaN; Str "y"]) as [e|err] eqn:He;
    [|vm_compute in He; discriminate].
  destruct (Plain.column_profile [NaN; Str "y"; Str "x"]) as [e'|err] eqn:He';
    [|vm_compute in He'; discriminate].
  destruct (profile_ignores_row_order Plain.str_to_number _ _ e e' Hperm He He')
    as [_ [_ [Hsame _]]].
  rewrite Hsame; [reflexivity|].
  vm_compute in He. injection He as <-. reflexivity.
Defined.

(** ** Further facts about the analysis of a frame *)

Section FrameMore.

Variable str_to_number : string -> option Q.

Lemma profiles_of_keys (cols : list (string * Series))
    (info : list (string * column_entry)) :
  profiles_of str_to_number cols info -> dict_keys info = map fst cols.
Proof.
  induction 1 as [|c e cols info [Hk _] _ IH]; [reflexivity|].
  simpl. rewrite Hk. f_equal. exact IH.
Qed.

Lemma isnull_sum_sum_le (df : DataFrame) :
  well_formed df -> isnull_sum_sum df <= index_len df * length (frame df).
Proof.
  unfold well_formed, isnull_sum_sum.
  induction (frame df) as [|c cols IH]; intros Hwf; simpl; [lia|].
  apply List.Forall_cons_iff in Hwf as [Hc Hwf].
  pose proof (isnull_sum_le (snd c)). specialize (IH Hwf). nia.
Qed.

Lemma share_as_percentage (m t : nat) :
  0 < t -> m <= t ->
  (0 <= Qmake (Z.of_nat m) 1 / Qmake (Z.of_nat t) 1 * 100 <= 100)%Q.
Proof.
  intros Ht Hm.
  destruct (Z.of_nat t) as [|p|p] eqn:Et; [lia | | lia].
  change (Qmake (Z.of_nat m) 1) with (inject_Z (Z.of_nat m)).
  change (Qmake (Z.pos p) 1) with (inject_Z (Z.pos p)).
  rewrite <- Qmake_Qdiv. unfold Qle, Qmult. simpl Qnum. simpl Qden.
  split; nia.
Qed.

End FrameMore.

(** X6.  For a frame with distinct column names the analysis returns a
    report with exactly one entry per column, in column order and keyed by
    the column names, each entry being the profile of its own column. *)
Theorem column_info_follows_columns
    (str_to_number : string -> option Q) (format_2f : stat -> string)
    (df : DataFrame) :
  List.NoDup (df_columns df) ->
  exists r,
    analyze_frame str_to_number format_2f df = Return r /\
    dict_keys (column_info r) = df_columns df /\
    length (column_info r) = column_count r /\
    profiles_of str_to_number (frame df) (column_info r) /\
    (forall col_name col,
       In (col_name, col) (frame df) ->
       exists e, dict_get (column_info r) col_name = Some e /\
                 column_profile str_to_number col = Return e).
Proof.
  intros Hnd.
  destruct (analyze_frame_returns str_to_number format_2f df) as [info [Hinfo Hr]].
  destruct (analyze_columns_profiles str_to_number df (frame df) [] Hnd)
    as [entries [Hrun Hprof]]; [auto | exact Hnd |].
  unfold df_columns in Hinfo. rewrite Hrun in Hinfo. injection Hinfo as <-.
  eexists. split; [exact Hr|]. simpl.
  pose proof (profiles_of_keys str_to_number _ _ Hprof) as Hkeys.
  split; [exact Hkeys|].
  split.
  { rewrite <- (List.length_map fst entries). fold (dict_keys entries).
    rewrite Hkeys. apply List.length_map. }
  split; [exact Hprof|].
  intros col_name col Hin. unfold df_columns in Hnd.
  clear Hrun Hr Hkeys. induction Hprof as [|c e cols info [Hk He] Hrest IH].
  - destruct Hin.
  - simpl in Hnd. apply List.NoDup_cons_iff in Hnd as [Hfresh Hnd].
    destruct e as [k e]. simpl in Hk, He. subst k. simpl.
    destruct Hin as [->|Hin].
    + simpl. rewrite String.eqb_refl. exists e. split; [reflexivity | exact He].
    + destruct (String.eqb_spec (fst c) col_name) as [Heq|_].
      * exfalso. apply Hfresh. rewrite Heq.
        change col_name with (fst (col_name, col)). apply List.in_map. exact Hin.
      * apply IH; assumption.
Qed.

Lemma column_info_follows_columns_witness :
  exists r,
    analyze_frame Plain.str_to_number Plain.format_2f
      {| index_len := 2; frame := [("n", [Str "1"; Str "2"]); ("t", [Str "u"; NaN])] |}
    = Return r /\
    dict_keys (column_info r) = ["n"; "t"].
Proof.
  destruct (column_info_follows_columns Plain.str_to_number Plain.format_2f
              {| index_len := 2; frame := [("n", [Str "1"; Str "2"]); ("t", [Str "u"; NaN])] |})
    as [r [Hr [Hkeys _]]].
  - apply List.NoDup_cons; [intros [H|[]]; discriminate|].
    apply List.NoDup_cons; [intros []|]. apply List.NoDup_nil.
  - exists r. exact (conj Hr Hkeys).
Defined.

(** X7.  For a frame in which every column has one cell per row, the
    number of missing cells is at most rows times columns and the missing
    percentage lies between 0 and 100. *)
Theorem missing_percentage_in_range
    (str_to_number : string -> option Q) (format_2f : stat -> string)
    (df : DataFrame) :
  well_formed df ->
  exists r,
    analyze_frame str_to_number format_2f df = Return r /\
    total_missing r <= row_count r * column_count r /\
    (0 <= percentage r <= 100)%Q.
Proof.
  intros Hwf.
  destruct (analyze_frame_returns str_to_number format_2f df) as [info [_ Hr]].
  eexists. split; [exact Hr|]. simpl.
  pose proof (isnull_sum_sum_le df Hwf) as Hle.
  split; [exact Hle|].
  destruct (Nat.ltb_spec 0 (index_len df * length (frame df))) as [Hpos|_].
  - apply share_as_percentage; assumption.
  - split; discriminate.
Qed.

Lemma missing_percentage_in_range_witness :
  exists r,
    analyze_frame Plain.str_to_number Plain.format_2f
      {| index_len := 2; frame := [("n", [Str "1"; NaN]); ("t", [NaN; NaN])] |}
    = Return r /\
    (0 <= percentage r <= 100)%Q.
Proof.
  destruct (missing_percentage_in_range Plain.str_to_number Plain.format_2f
              {| index_len := 2; frame := [("n", [Str "1"; NaN]); ("t", [NaN; NaN])] |})
    as [r [Hr [_ Hrange]]].
  - repeat constructor.
  - exists r. exact (conj Hr Hrange).
Defined.

(** X8.  The analysis never raises: on every text it returns a dictionary.
    The dictionary has the key ["error"] exactly when reading the text
    failed; otherwise its keys are ["summary"], ["column_info"] and
    ["dataframe"], the frame being the one that was read and summary and
    column information those of its report. *)
Theorem result_has_error_key_iff_read_failed
    (str_to_number : string -> option Q) (format_2f : stat -> string)
    (tokenize : string -> string + token_table) (na_values : list string)
    (csv_content : string) :
  exists out,
    analyze_csv_data str_to_number format_2f tokenize na_values csv_content = Return out /\
    ((exists reason, read_csv tokenize na_values csv_content = inl reason) <->
     dict_get out "error" <> None) /\
    (forall df,
       read_csv tokenize na_values csv_content = inr df ->
       dict_keys out = ["summary"; "column_info"; "dataframe"] /\
       dict_get out "dataframe" = Some (PDataFrame df) /\
       exists r,
         analyze_frame str_to_number format_2f df = Return r /\
         dict_get out "summary" = Some (PStr (summary r)) /\
         dict_get out "column_info" = Some (PColumnInfo (column_info r))).
Proof.
  unfold analyze_csv_data.
  destruct (read_csv tokenize na_values csv_content) as [reason|df] eqn:Hread.
  - eexists. split; [reflexivity|]. split.
    + split; [intros _; discriminate | intros _; exists reason; reflexivity].
    + intros df [=].
  - destruct (analyze_frame_returns str_to_number format_2f df) as [info [_ Hr]].
    rewrite Hr. cbn [bind]. eexists. split; [reflexivity|]. split.
    + split; [intros [reason [=]] | intros H; exfalso; apply H; reflexivity].
    + intros df' [= <-]. split; [reflexivity|]. split; [reflexivity|].
      eexists. split; [exact Hr|]. split; reflexivity.
Qed.

Lemma result_has_error_key_iff_read_failed_witness :
  exists out,
    Plain.analyze_csv_data "a,b" = Return out /\
    dict_keys out = ["summary"; "column_info"; "dataframe"] /\
    dict_get out "error" = None.
Proof.
  destruct (result_has_error_key_iff_read_failed Plain.str_to_number Plain.format_2f
              Plain.tokenize Plain.STR_NA_VALUES "a,b")
    as [out [Hout [Herror Hok]]].
  exists out. split; [exact Hout|].
  destruct (Hok _ eq_refl) as [Hkeys _]. split; [exact Hkeys|].
  destruct (dict_get out "error") as [v|] eqn:E; [|reflexivity].
  exfalso. assert (Hsome : Some v <> None) by discriminate.
  apply Herror in Hsome. destruct Hsome as [reason Hreason].
  vm_compute in Hreason. discriminate.
Defined.

(** ** The chart loop *)

Section ChartLoop.

Variable df : DataFrame.

Lemma pyplot_slots_app (p q : page) :
  pyplot_slots (p ++ q)%list = (pyplot_slots p ++ pyplot_slots q)%list.
Proof. unfold pyplot_slots. apply omap_app. Qed.

Lemma info_messages_app (p q : page) :
  info_messages (p ++ q)%list = (info_messages p ++ info_messages q)%list.
Proof. unfold info_messages. apply omap_app. Qed.

Lemma offered_presentations_app (p q : page) :
  offered_presentations (p ++ q)%list =
  (offered_presentations p ++ offered_presentations q)%list.
Proof. unfold offered_presentations. apply omap_app. Qed.

(** What one turn of the loop does to the state, by the chart planned for
    the entry. *)
Lemma chart_step_spec (st : charts_state) (item : string * column_entry) :
  In (fst item) (df_columns df) ->
  exists st',
    chart_step df st item = Return st' /\
    map title (chart_images_for_ppt st') =
      (map title (chart_images_for_ppt st) ++ option_list (planned_title item))%list /\
    num_charts_displayed st' =
      num_charts_displayed st + length (option_list (planned_title item)) /\
    chart_idx st' = chart_idx st + length (option_list (planned_title item)) /\
    pyplot_slots (drawn st') =
      (pyplot_slots (drawn st) ++
       map (fun _ => Some (chart_idx st mod 2)) (option_list (planned_title item)))%list /\
    info_messages (drawn st') =
      (info_messages (drawn st) ++
       (if too_short item then [too_short_message (fst item)] else []))%list /\
    (Forall (fun c => fig_title (image_buffer c) = title c) (chart_images_for_ppt st) ->
     Forall (fun c => fig_title (image_buffer c) = title c) (chart_images_for_ppt st')).
Proof.
  destruct item as [col_name [i|i]]; intros Hin; simpl in Hin;
    unfold chart_step, planned_title, too_short; cbn [fst snd].
  - destruct (10 <? info_count i) eqn:Hcount; cbn [negb option_list length map].
    + destruct (df_getitem_returns df col_name Hin) as [col [-> _]]. cbn [bind].
      eexists. split; [reflexivity|].
      cbn [chart_images_for_ppt num_charts_displayed chart_idx drawn].
      rewrite List.map_app, pyplot_slots_app, info_messages_app.
      split; [reflexivity|]. split; [reflexivity|]. split; [reflexivity|].
      split; [reflexivity|]. split; [reflexivity|].
      intros Hall. apply List.Forall_app. split; [exact Hall|].
      constructor; [reflexivity | constructor].
    + eexists. split; [reflexivity|].
      cbn [chart_images_for_ppt num_charts_displayed chart_idx drawn].
      rewrite pyplot_slots_app, info_messages_app, !List.app_nil_r, !Nat.add_0_r.
      split; [reflexivity|]. split; [reflexivity|]. split; [reflexivity|].
      split; [reflexivity|]. split; [reflexivity|]. auto.
  - destruct (unique_values i <? 50) eqn:Hunique; cbn [option_list length map].
    + eexists. split; [reflexivity|].
      cbn [chart_images_for_ppt num_charts_displayed chart_idx drawn].
      rewrite List.map_app, pyplot_slots_app, info_messages_app.
      split; [reflexivity|]. split; [reflexivity|]. split; [reflexivity|].
      split; [reflexivity|]. split; [reflexivity|].
      intros Hall. apply List.Forall_app. split; [exact Hall|].
      constructor; [reflexivity | constructor].
    + exists st. rewrite !List.app_nil_r, !Nat.add_0_r.
      split; [reflexivity|]. split; [reflexivity|]. split; [reflexivity|].
      split; [reflexivity|]. split; [reflexivity|]. auto.
Qed.

Lemma planned_length_le (items : list (string * column_entry)) :
  length (omap planned_title items) <= length items.
Proof.
  induction items as [|item items IH]; [reflexivity|].
  cbn. destruct (planned_title item); simpl; lia.
Qed.

Lemma planned_cons (item : string * column_entry) (items : list (string * column_entry)) :
  omap planned_title (item :: items) =
  (option_list (planned_title item) ++ omap planned_title items)%list.
Proof. cbn. destruct (planned_title item); reflexivity. Qed.

Lemma too_short_cons (item : string * column_entry) (items : list (string * column_entry)) :
  map (fun it => too_short_message (fst it)) (List.filter too_short (item :: items)) =
  ((if too_short item then [too_short_message (fst item)] else []) ++
   map (fun it => too_short_message (fst it)) (List.filter too_short items))%list.
Proof. simpl. destruct (too_short item); reflexivity. Qed.

(** What the whole loop does: one chart per entry that has a planned
    title, in order, written alternately into the two chart columns. *)
Lemma chart_loop_spec (items : list (string * column_entry)) (st : charts_state) :
  (forall item, In item items -> In (fst item) (df_columns df)) ->
  exists st',
    chart_loop df items st = Return st' /\
    map title (chart_images_for_ppt st') =
      (map title (chart_images_for_ppt st) ++ omap planned_title items)%list /\
    num_charts_displayed st' =
      num_charts_displayed st + length (omap planned_title items) /\
    chart_idx st' = chart_idx st + length (omap planned_title items) /\
    pyplot_slots (drawn st') =
      (pyplot_slots (drawn st) ++
       map (fun k => Some (k mod 2))
           (seq (chart_idx st) (length (omap planned_title items))))%list /\
    info_messages (drawn st') =
      (info_messages (drawn st) ++
       map (fun it => too_short_message (fst it)) (List.filter too_short items))%list /\
    (Forall (fun c => fig_title (image_buffer c) = title c) (chart_images_for_ppt st) ->
     Forall (fun c => fig_title (image_buffer c) = title c) (chart_images_for_ppt st')).
Proof.
  revert st. induction items as [|item items IH]; intros st Hin.
  - exists st. cbn [chart_loop omap list_omap length seq map List.filter].
    rewrite !List.app_nil_r, Nat.add_0_r. repeat split; auto.
  - destruct (chart_step_spec st item) as [st1 [Hstep [Ht [Hn [Hi [Hp [Hm Hf]]]]]]];
      [apply Hin; left; reflexivity|].
    destruct (IH st1) as [st' [Hloop [Ht' [Hn' [Hi' [Hp' [Hm' Hf']]]]]]];
      [intros it Hit; apply Hin; right; exact Hit|].
    exists st'. cbn [chart_loop]. rewrite Hstep. cbn [bind].
    split; [exact Hloop|].
    rewrite planned_cons, too_short_cons, List.length_app.
    rewrite Ht', Ht, Hn', Hn, Hi', Hi, Hp', Hp, Hm', Hm, <- !List.app_assoc.
    split; [reflexivity|]. split; [lia|]. split; [lia|].
    split; [|split; [reflexivity | auto]].
    rewrite Hi. f_equal. rewrite List.seq_app, List.map_app. f_equal.
    destruct (planned_title item); reflexivity.
Qed.

End ChartLoop.

(** ** The "Visualizations" section *)

Section Visualizations.

Variable df : DataFrame.

Lemma visualizations_spec (column_info : list (string * column_entry)) :
  (forall item, In item column_info -> In (fst item) (df_columns df)) ->
  exists st,
    visualizations df column_info = Return st /\
    map title (chart_images_for_ppt st) = omap planned_title column_info /\
    num_charts_displayed st = length (omap planned_title column_info) /\
    chart_idx st = length (omap planned_title column_info) /\
    pyplot_slots (drawn st) =
      map (fun k => Some (k mod 2)) (seq 0 (length (omap planned_title column_info))) /\
    info_messages (drawn st) =
      (map (fun it => too_short_message (fst it)) (List.filter too_short column_info) ++
       (if length (omap planned_title column_info) =? 0 then [no_charts_message] else []))%list /\
    Forall (fun c => fig_title (image_buffer c) = title c) (chart_images_for_ppt st).
Proof.
  intros Hkeys. unfold visualizations.
  destruct (chart_loop_spec df column_info
              {| drawn := [in_main (st_subheader "Visualizations")];
                 chart_images_for_ppt := [];
                 num_charts_displayed := 0;
                 chart_idx := 0 |} Hkeys)
    as [st [Hloop [Ht [Hn [Hi [Hp [Hm Hf]]]]]]].
  rewrite Hloop. cbn [bind].
  cbn [chart_images_for_ppt num_charts_displayed chart_idx drawn map app Nat.add]
    in Ht, Hn, Hi, Hp, Hm.
  change (pyplot_slots [in_main (st_subheader "Visualizations")])
    with (@nil (option nat)) in Hp.
  change (info_messages [in_main (st_subheader "Visualizations")])
    with (@nil string) in Hm.
  cbn [app] in Hp, Hm.
  specialize (Hf (List.Forall_nil _)).
  rewrite <- Hn.
  destruct (num_charts_displayed st =? 0) eqn:Hzero.
  - eexists. split; [reflexivity|].
    cbn [chart_images_for_ppt num_charts_displayed chart_idx drawn].
    rewrite pyplot_slots_app, info_messages_app, Hp, Hm, Hn.
    split; [exact Ht|]. split; [reflexivity|]. split; [exact Hi|].
    split; [apply List.app_nil_r|]. split; [reflexivity | exact Hf].
  - exists st. split; [reflexivity|]. rewrite Hm, List.app_nil_r, Hn.
    split; [exact Ht|]. split; [reflexivity|]. split; [exact Hi|].
    split; [exact Hp|]. split; [reflexivity | exact Hf].
Qed.

End Visualizations.

(** X9.  The chart loop draws exactly one chart for every categorical
    column with fewer than 50 distinct values and every numeric column with
    more than 10 values, in the order of the columns, titled "Frequency
    Distribution of" or "Distribution of" the column, and no other chart;
    the figure carries the title recorded for the presentation, and the
    two counters of the loop both end at the number of charts, which is at
    most the number of columns. *)
Theorem charts_follow_column_info
    (df : DataFrame) (column_info : list (string * column_entry)) :
  (forall item, In item column_info -> In (fst item) (df_columns df)) ->
  exists st,
    visualizations df column_info = Return st /\
    map title (chart_images_for_ppt st) = omap planned_title column_info /\
    Forall (fun c => fig_title (image_buffer c) = title c) (chart_images_for_ppt st) /\
    num_charts_displayed st = length (chart_images_for_ppt st) /\
    chart_idx st = length (chart_images_for_ppt st) /\
    length (chart_images_for_ppt st) <= length column_info.
Proof.
  intros Hkeys.
  destruct (visualizations_spec df column_info Hkeys)
    as [st [Hvis [Ht [Hn [Hi [_ [_ Hf]]]]]]].
  exists st. split; [exact Hvis|]. split; [exact Ht|]. split; [exact Hf|].
  assert (Hlen : length (chart_images_for_ppt st) =
                 length (omap planned_title column_info)).
  { rewrite <- Ht. symmetry. apply List.length_map. }
  rewrite Hlen. split; [exact Hn|]. split; [exact Hi|].
  apply planned_length_le.
Qed.

Lemma charts_follow_column_info_witness :
  exists st,
    visualizations
      {| index_len := 0; frame := [("city", []); ("age", []); ("id", [])] |}
      [("city", Categorical {| unique_values := 3; counts := ∅;
                               categorical_missing_count := 0 |});
       ("age", Numeric {| info_min := SNaN; info_max := SNaN; info_mean := SNaN;
                          info_median := SNaN; info_std := SNaN; info_count := 4;
                          numeric_missing_count := 0 |});
       ("id", Categorical {| unique_values := 50; counts := ∅;
                             categorical_missing_count := 0 |})] = Return st /\
    map title (chart_images_for_ppt st) = ["Frequency Distribution of city"] /\
    num_charts_displayed st = length (chart_images_for_ppt st).
Proof.
  destruct (charts_follow_column_info
              {| index_len := 0; frame := [("city", []); ("age", []); ("id", [])] |}
              [("city", Categorical {| unique_values := 3; counts := ∅;
                                       categorical_missing_count := 0 |});
               ("age", Numeric {| info_min := SNaN; info_max := SNaN; info_mean := SNaN;
                                  info_median := SNaN; info_std := SNaN; info_count := 4;
                                  numeric_missing_count := 0 |});
               ("id", Categorical {| unique_values := 50; counts := ∅;
                                     categorical_missing_count := 0 |})])
    as [st [Hvis [Ht [_ [Hn _]]]]].
  - intros item [<-|[<-|[<-|[]]]]; simpl; tauto.
  - exists st. exact (conj Hvis (conj Ht Hn)).
Defined.

(** X10.  The charts are written alternately into the two chart columns:
    the first into column 0, the second into column 1, the third into
    column 0 again; a column that gets no chart does not advance the
    alternation. *)
Theorem charts_alternate_between_columns
    (df : DataFrame) (column_info : list (string * column_entry)) :
  (forall item, In item column_info -> In (fst item) (df_columns df)) ->
  exists st,
    visualizations df column_info = Return st /\
    pyplot_slots (drawn st) =
      map (fun k => Some (k mod 2)) (seq 0 (length (chart_images_for_ppt st))).
Proof.
  intros Hkeys.
  destruct (visualizations_spec df column_info Hkeys)
    as [st [Hvis [Ht [_ [_ [Hp _]]]]]].
  exists st. split; [exact Hvis|].
  rewrite Hp, <- Ht, List.length_map. reflexivity.
Qed.

Lemma charts_alternate_between_columns_witness :
  exists st,
    visualizations
      {| index_len := 0; frame := [("a", []); ("b", []); ("c", []); ("d", [])] |}
      [("a", Categorical {| unique_values := 1; counts := ∅; categorical_missing_count := 0 |});
       ("b", Categorical {| unique_values := 70; counts := ∅; categorical_missing_count := 0 |});
       ("c", Categorical {| unique_values := 2; counts := ∅; categorical_missing_count := 0 |});
       ("d", Categorical {| unique_values := 5; counts := ∅; categorical_missing_count := 0 |})]
    = Return st /\
    pyplot_slots (drawn st) = [Some 0; Some 1; Some 0].
Proof.
  destruct (charts_alternate_between_columns
              {| index_len := 0; frame := [("a", []); ("b", []); ("c", []); ("d", [])] |}
              [("a", Categorical {| unique_values := 1; counts := ∅; categorical_missing_count := 0 |});
               ("b", Categorical {| unique_values := 70; counts := ∅; categorical_missing_count := 0 |});
               ("c", Categorical {| unique_values := 2; counts := ∅; categorical_missing_count := 0 |});
               ("d", Categorical {| unique_values := 5; counts := ∅; categorical_missing_count := 0 |})])
    as [st [Hvis Hslots]].
  - intros item [<-|[<-|[<-|[<-|[]]]]]; simpl; tauto.
  - exists st. split; [exact Hvis|].
    rewrite Hslots. vm_compute in Hvis. injection Hvis as <-. reflexivity.
Defined.

(** X11.  The section tells the user about every column it does not chart
    for lack of data and about nothing else: one "Not enough data points"
    message per numeric column with at most 10 values, in column order,
    and, exactly when no chart at all was drawn, the closing "No suitable
    columns" message.  A categorical column with 50 or more distinct
    values is skipped without a message. *)
Theorem messages_of_the_chart_section
    (df : DataFrame) (column_info : list (string * column_entry)) :
  (forall item, In item column_info -> In (fst item) (df_columns df)) ->
  exists st,
    visualizations df column_info = Return st /\
    info_messages (drawn st) =
      (map (fun it => too_short_message (fst it)) (List.filter too_short column_info) ++
       match chart_images_for_ppt st with
       | [] => [no_charts_message]
       | _ => []
       end)%list.
Proof.
  intros Hkeys.
  destruct (visualizations_spec df column_info Hkeys)
    as [st [Hvis [Ht [_ [_ [_ [Hm _]]]]]]].
  exists st. split; [exact Hvis|].
  rewrite Hm, <- Ht, List.length_map.
  destruct (chart_images_for_ppt st); reflexivity.
Qed.

Lemma messages_of_the_chart_section_witness :
  exists st,
    visualizations
      {| index_len := 0; frame := [("age", []); ("id", [])] |}
      [("age", Numeric {| info_min := SNaN; info_max := SNaN; info_mean := SNaN;
                          info_median := SNaN; info_std := SNaN; info_count := 10;
                          numeric_missing_count := 0 |});
       ("id", Categorical {| unique_values := 50; counts := ∅;
                             categorical_missing_count := 0 |})] = Return st /\
    info_messages (drawn st) =
      ["Not enough data points to plot distribution for 'age' in this column.";
       no_charts_message].
Proof.
  destruct (messages_of_the_chart_section
              {| index_len := 0; frame := [("age", []); ("id", [])] |}
              [("age", Numeric {| info_min := SNaN; info_max := SNaN; info_mean := SNaN;
                                  info_median := SNaN; info_std := SNaN; info_count := 10;
                                  numeric_missing_count := 0 |});
               ("id", Categorical {| unique_values := 50; counts := ∅;
                                     categorical_missing_count := 0 |})])
    as [st [Hvis Hm]].
  - intros item [<-|[<-|[]]]; simpl; tauto.
  - exists st. split; [exact Hvis|].
    rewrite Hm. vm_compute in Hvis. injection Hvis as <-. reflexivity.
Defined.

(** ** The page *)

Section Page.

Variable str_to_number : string -> option Q.
Variable format_2f : stat -> string.
Variable tokenize : string -> string + token_table.
Variable na_values : list string.
Variable to_csv : DataFrame -> string.
Variable Inches : Q -> Z.
Variable slide_width slide_height : Z.
Variable context_text manual_steps_text : string.

Lemma dict_set_keys {V} (d : list (string * V)) (k : string) (v : V) (x : string) :
  In x (dict_keys (dict_set d k v)) -> x = k \/ In x (dict_keys d).
Proof.
  induction d as [|[k' v'] d IH]; simpl.
  - intros [<-|[]]. left. reflexivity.
  - destruct (String.eqb_spec k' k) as [->|Hne]; simpl.
    + intros [<-|H]; auto.
    + intros [<-|H]; auto. destruct (IH H); auto.
Qed.

Lemma analyze_columns_keys (df : DataFrame) (names : list string)
    (acc info : list (string * column_entry)) :
  analyze_columns str_to_number df names acc = Return info ->
  forall x, In x (dict_keys info) -> In x names \/ In x (dict_keys acc).
Proof.
  revert acc. induction names as [|n names IH]; intros acc; simpl.
  - intros [= <-] x Hx. right. exact Hx.
  - destruct (df_getitem df n) as [col|err]; [|discriminate]. cbn [bind].
    destruct (column_profile str_to_number col) as [e|err]; [|discriminate].
    cbn [bind]. intros Hrun x Hx.
    destruct (IH _ Hrun x Hx) as [H|H]; [left; right; exact H|].
    apply dict_set_keys in H. destruct H as [->|H]; [left; left; reflexivity | right; exact H].
Qed.

(** Every key of the column information names a column of the frame, so
    the chart loop can look it up. *)
Lemma analyze_frame_keys (df : DataFrame) (r : report) :
  analyze_frame str_to_number format_2f df = Return r ->
  forall item, In item (column_info r) -> In (fst item) (df_columns df).
Proof.
  intros Hr item Hitem.
  destruct (analyze_frame_returns str_to_number format_2f df) as [info [Hinfo Hr']].
  rewrite Hr' in Hr. injection Hr as <-. simpl in Hitem.
  destruct (analyze_columns_keys df _ _ _ Hinfo (fst item)) as [H|[]]; [|exact H].
  unfold dict_keys. apply List.in_map. exact Hitem.
Qed.

Lemma app_on_parsed (csv_content : string) (clicked : bool) (df : DataFrame) :
  read_csv tokenize na_values csv_content = inr df ->
  exists r st,
    analyze_frame str_to_number format_2f df = Return r /\
    visualizations df (column_info r) = Return st /\
    app str_to_number format_2f tokenize na_values to_csv Inches slide_width slide_height
        context_text manual_steps_text (Some csv_content) clicked =
    Done (page_header ++
          ([in_main (st_subheader "Dataset Overview"); in_main (st_text (summary r))] ++
           drawn st ++
           download_section to_csv df (summary r) ++
           ppt_section Inches slide_width slide_height (chart_images_for_ppt st) clicked ++
           advice_section context_text manual_steps_text) ++
          page_footer)%list.
Proof.
  intros Hread.
  destruct (analyze_frame_returns str_to_number format_2f df) as [info [_ Hr]].
  destruct (visualizations_spec df info) as [st [Hvis _]].
  { intros item Hitem. apply (analyze_frame_keys df _ Hr). exact Hitem. }
  eexists _, st. split; [exact Hr|]. split; [exact Hvis|].
  unfold app, analyze_csv_data. rewrite Hread, Hr. cbn [bind].
  change (dict_get _ "error") with (@None pyvalue).
  unfold results_page, getitem.
  cbn [dict_get String.eqb Ascii.eqb Bool.eqb summary column_info].
  rewrite Hvis. reflexivity.
Qed.

End Page.

Section PageMore.

Variable df : DataFrame.

Lemma chart_step_no_download (st st' : charts_state) (item : string * column_entry) :
  chart_step df st item = Return st' ->
  offered_presentations (drawn st') = offered_presentations (drawn st).
Proof.
  destruct item as [col_name [i|i]]; unfold chart_step.
  - destruct (10 <? info_count i).
    + destruct (df_getitem df col_name) as [col|err]; [|discriminate].
      cbn [bind]. intros [= <-]. cbn [drawn].
      rewrite offered_presentations_app. apply List.app_nil_r.
    + intros [= <-]. cbn [drawn].
      rewrite offered_presentations_app. apply List.app_nil_r.
  - destruct (unique_values i <? 50).
    + intros [= <-]. cbn [drawn].
      rewrite offered_presentations_app. apply List.app_nil_r.
    + intros [= <-]. reflexivity.
Qed.

Lemma chart_loop_no_download (items : list (string * column_entry))
    (st st' : charts_state) :
  chart_loop df items st = Return st' ->
  offered_presentations (drawn st') = offered_presentations (drawn st).
Proof.
  revert st. induction items as [|item items IH]; intros st; cbn [chart_loop].
  - intros [= <-]. reflexivity.
  - destruct (chart_step df st item) as [st1|err] eqn:Hstep; [|discriminate].
    cbn [bind]. intros Hloop.
    rewrite (IH _ Hloop). apply (chart_step_no_download _ _ _ Hstep).
Qed.

Lemma visualizations_no_download (column_info : list (string * column_entry))
    (st : charts_state) :
  visualizations df column_info = Return st ->
  offered_presentations (drawn st) = [].
Proof.
  unfold visualizations.
  destruct (chart_loop df column_info _) as [st1|err] eqn:Hloop; [|discriminate].
  cbn [bind]. apply chart_loop_no_download in Hloop. cbn [drawn] in Hloop.
  destruct (num_charts_displayed st1 =? 0); intros [= <-]; cbn [drawn].
  - rewrite offered_presentations_app, Hloop. reflexivity.
  - exact Hloop.
Qed.

End PageMore.

(** Once the upload is decoded, no lookup in the result dictionary fails
    or finds a value of the wrong type, and no column lookup of the chart
    loop fails. *)
Lemma app_draws_a_page
    (str_to_number : string -> option Q) (format_2f : stat -> string)
    (tokenize : string -> string + token_table) (na_values : list string)
    (to_csv : DataFrame -> string) (Inches : Q -> Z) (slide_width slide_height : Z)
    (context_text manual_steps_text : string)
    (uploaded_file : option string) (clicked : bool) :
  exists body,
    app str_to_number format_2f tokenize na_values to_csv Inches slide_width slide_height
        context_text manual_steps_text uploaded_file clicked =
    Done (page_header ++ body ++ page_footer)%list.
Proof.
  destruct uploaded_file as [csv_content|]; [|eexists; reflexivity].
  destruct (read_csv tokenize na_values csv_content) as [reason|df] eqn:Hread.
  - eexists. unfold app, analyze_csv_data. rewrite Hread. reflexivity.
  - destruct (app_on_parsed str_to_number format_2f tokenize na_values to_csv Inches
                slide_width slide_height context_text manual_steps_text
                csv_content clicked df Hread) as [r [st [_ [_ Happ]]]].
    eexists. exact Happ.
Qed.

(** X13.  When the upload cannot be read, the page shows the error "Error:
    Failed to parse CSV:" followed by the reason between the header and
    the footer, and nothing else: no overview, no chart, no download. *)
Theorem unreadable_upload_shows_only_the_error
    (str_to_number : string -> option Q) (format_2f : stat -> string)
    (tokenize : string -> string + token_table) (na_values : list string)
    (to_csv : DataFrame -> string) (Inches : Q -> Z) (slide_width slide_height : Z)
    (context_text manual_steps_text : string)
    (csv_content reason : string) (clicked : bool) :
  read_csv tokenize na_values csv_content = inl reason ->
  app str_to_number format_2f tokenize na_values to_csv Inches slide_width slide_height
      context_text manual_steps_text (Some csv_content) clicked =
  Done (page_header ++
        [in_main (st_error ("Error: Failed to parse CSV: " ++ reason))] ++
        page_footer)%list.
Proof.
  intros Hread. unfold app, analyze_csv_data. rewrite Hread. reflexivity.
Qed.

Lemma unreadable_upload_shows_only_the_error_witness :
  PlainScript.app (Some "") true =
  Done (page_header ++
        [in_main (st_error "Error: Failed to parse CSV: No columns to parse from file")] ++
        page_footer)%list.
Proof.
  exact (unreadable_upload_shows_only_the_error Plain.str_to_number Plain.format_2f
           Plain.tokenize Plain.STR_NA_VALUES PlainScript.to_csv PlainScript.Inches
           PlainScript.slide_width PlainScript.slide_height "" ""
           "" "No columns to parse from file" true eq_refl).
Defined.

(** X14.  When the upload is read, the page shows the summary of the
    report as text, offers that same text for download as
    dataset_overview.txt, and offers the frame that was read, written back
    as CSV, as analyzed_data.csv. *)
Theorem overview_shown_is_overview_offered
    (str_to_number : string -> option Q) (format_2f : stat -> string)
    (tokenize : string -> string + token_table) (na_values : list string)
    (to_csv : DataFrame -> string) (Inches : Q -> Z) (slide_width slide_height : Z)
    (context_text manual_steps_text : string)
    (csv_content : string) (clicked : bool) (df : DataFrame) :
  read_csv tokenize na_values csv_content = inr df ->
  exists r p,
    analyze_frame str_to_number format_2f df = Return r /\
    app str_to_number format_2f tokenize na_values to_csv Inches slide_width slide_height
        context_text manual_steps_text (Some csv_content) clicked = Done p /\
    In (in_main (st_text (summary r))) p /\
    In (in_main (st_download_button "Download Dataset Overview (Text)"
                   (TextData (summary r)) "dataset_overview.txt" "text/plain"
                   "Download the textual summary of the dataset's characteristics.")) p /\
    In (in_main (st_download_button "Download Analyzed Data (CSV)"
                   (CsvData (to_csv df)) "analyzed_data.csv" "text/csv"
                   "Download the full dataset you uploaded, as processed by the analyzer.")) p.
Proof.
  intros Hread.
  destruct (app_on_parsed str_to_number format_2f tokenize na_values to_csv Inches
              slide_width slide_height context_text manual_steps_text
              csv_content clicked df Hread) as [r [st [Hr [_ Happ]]]].
  eexists r, _. split; [exact Hr|]. split; [exact Happ|].
  split; [|split].
  - apply List.in_or_app. right. apply List.in_or_app. left.
    apply List.in_or_app. left. right. left. reflexivity.
  - apply List.in_or_app. right. apply List.in_or_app. left.
    apply List.in_or_app. right. apply List.in_or_app. right.
    apply List.in_or_app. left. right. right. right. left. reflexivity.
  - apply List.in_or_app. right. apply List.in_or_app. left.
    apply List.in_or_app. right. apply List.in_or_app. right.
    apply List.in_or_app. left. right. right. left. reflexivity.
Qed.

Lemma overview_shown_is_overview_offered_witness :
  exists r p,
    analyze_frame Plain.str_to_number Plain.format_2f
      {| index_len := 0; frame := [("a", []); ("b", [])] |} = Return r /\
    PlainScript.app (Some "a,b") false = Done p /\
    In (in_main (st_text (summary r))) p.
Proof.
  destruct (overview_shown_is_overview_offered Plain.str_to_number Plain.format_2f
              Plain.tokenize Plain.STR_NA_VALUES PlainScript.to_csv PlainScript.Inches
              PlainScript.slide_width PlainScript.slide_height "" ""
              "a,b" false {| index_len := 0; frame := [("a", []); ("b", [])] |} eq_refl)
    as [r [p [Hr [Happ [Htext _]]]]].
  exists r, p. exact (conj Hr (conj Happ Htext)).
Defined.

(** ** The presentation *)

Section Presentation.

Variable Inches : Q -> Z.
Variable slide_width slide_height : Z.

Lemma build_presentation_texts (charts : list chart) :
  map slide_texts (build_presentation Inches slide_width slide_height charts) =
  ["Dataset Analysis Report"] :: map (fun c => [title c]) charts.
Proof.
  unfold build_presentation. cbn [map slide_texts]. f_equal.
  rewrite List.map_map. reflexivity.
Qed.

Lemma build_presentation_pictures (charts : list chart) :
  map slide_pictures (build_presentation Inches slide_width slide_height charts) =
  [] :: map (fun c => [image_buffer c]) charts.
Proof.
  unfold build_presentation. cbn [map slide_pictures]. f_equal.
  rewrite List.map_map. reflexivity.
Qed.

Lemma ppt_section_offers (charts : list chart) (clicked : bool) :
  offered_presentations (ppt_section Inches slide_width slide_height charts clicked) =
  if clicked && negb (length charts =? 0)
  then [build_presentation Inches slide_width slide_height charts]
  else [].
Proof. destruct charts, clicked; reflexivity. Qed.

End Presentation.

(** X15.  The page offers a presentation for download exactly when the
    button was pressed and at least one chart was drawn.  The presentation
    has the title slide "Dataset Analysis Report" followed by one slide per
    chart, in the order of the charts, each with the title of its chart in
    a text box and the figure of its chart as its only picture. *)
Theorem presentation_has_one_slide_per_chart
    (str_to_number : string -> option Q) (format_2f : stat -> string)
    (tokenize : string -> string + token_table) (na_values : list string)
    (to_csv : DataFrame -> string) (Inches : Q -> Z) (slide_width slide_height : Z)
    (context_text manual_steps_text : string)
    (csv_content : string) (clicked : bool) (df : DataFrame) :
  read_csv tokenize na_values csv_content = inr df ->
  exists r st p,
    analyze_frame str_to_number format_2f df = Return r /\
    visualizations df (column_info r) = Return st /\
    app str_to_number format_2f tokenize na_values to_csv Inches slide_width slide_height
        context_text manual_steps_text (Some csv_content) clicked = Done p /\
    offered_presentations p =
      (if clicked && negb (length (chart_images_for_ppt st) =? 0)
       then [build_presentation Inches slide_width slide_height (chart_images_for_ppt st)]
       else []) /\
    length (build_presentation Inches slide_width slide_height (chart_images_for_ppt st)) =
      S (length (chart_images_for_ppt st)) /\
    map slide_texts
        (build_presentation Inches slide_width slide_height (chart_images_for_ppt st)) =
      ["Dataset Analysis Report"] :: map (fun c => [title c]) (chart_images_for_ppt st) /\
    map slide_pictures
        (build_presentation Inches slide_width slide_height (chart_images_for_ppt st)) =
      [] :: map (fun c => [image_buffer c]) (chart_images_for_ppt st).
Proof.
  intros Hread.
  destruct (app_on_parsed str_to_number format_2f tokenize na_values to_csv Inches
              slide_width slide_height context_text manual_steps_text
              csv_content clicked df Hread) as [r [st [Hr [Hvis Happ]]]].
  eexists r, st, _. split; [exact Hr|]. split; [exact Hvis|]. split; [exact Happ|].
  split; [|split; [|split]].
  - rewrite !offered_presentations_app.
    rewrite (visualizations_no_download df _ _ Hvis), ppt_section_offers.
    cbn. rewrite ?List.app_nil_r. reflexivity.
  - unfold build_presentation. cbn [length]. rewrite List.length_map. reflexivity.
  - apply build_presentation_texts.
  - apply build_presentation_pictures.
Qed.

Lemma presentation_has_one_slide_per_chart_witness :
  exists p slides,
    PlainScript.app (Some ("k" ++ nl ++ "x" ++ nl ++ "y" ++ nl ++ "x")) true = Done p /\
    offered_presentations p = [slides] /\
    map slide_texts slides =
      [["Dataset Analysis Report"]; ["Frequency Distribution of k"]].
Proof.
  destruct (presentation_has_one_slide_per_chart Plain.str_to_number Plain.format_2f
              Plain.tokenize Plain.STR_NA_VALUES PlainScript.to_csv PlainScript.Inches
              PlainScript.slide_width PlainScript.slide_height "" ""
              ("k" ++ nl ++ "x" ++ nl ++ "y" ++ nl ++ "x") true
              {| index_len := 3; frame := [("k", [Str "x"; Str "y"; Str "x"])] |} eq_refl)
    as [r [st [p [Hr [Hvis [Happ [Hoffer [_ [Htexts _]]]]]]]]].
  vm_compute in Hr. injection Hr as <-.
  vm_compute in Hvis. injection Hvis as <-.
  exists p. eexists. split; [exact Happ|]. split.
  - etransitivity; [exact Hoffer | reflexivity].
  - exact Htexts.
Defined.

(** X16.  On a chart slide the picture is 8 by 5 inches and horizontally
    centred; vertically it sits half an inch below the centred position.
    It lies within the slide whenever the slide is at least 8 inches wide
    and at least 6 inches high (5 inches plus twice the half inch). *)
Theorem chart_picture_placement
    (Inches : Q -> Z) (slide_width slide_height : Z) (chart_data : chart) :
  exists (title_shape : shape_) left top,
    chart_slide Inches slide_width slide_height chart_data =
      BlankSlide [title_shape;
                  Picture (image_buffer chart_data) left top
                          (inject_Z (Inches 8%Q)) (inject_Z (Inches 5%Q))] /\
    (left + inject_Z (Inches 8%Q) + left == inject_Z slide_width)%Q /\
    (top == (inject_Z slide_height - inject_Z (Inches 5%Q)) / 2 + inject_Z (Inches (5 # 10)))%Q /\
    ((Inches 8%Q <= slide_width)%Z -> (0 <= left)%Q) /\
    ((0 <= Inches (5 # 10))%Z ->
     (Inches 5%Q + 2 * Inches (5 # 10) <= slide_height)%Z ->
     (0 <= top)%Q /\ (top + inject_Z (Inches 5%Q) <= inject_Z slide_height)%Q).
Proof.
  eexists _, _, _. split; [reflexivity|].
  generalize (Inches 8%Q) (Inches 5%Q) (Inches (5 # 10)). intros w h half.
  unfold Qeq, Qle, Qplus, Qminus, Qdiv, Qmult, Qinv, Qopp, inject_Z. simpl.
  repeat split; intros; lia.
Qed.

Lemma chart_picture_placement_witness :
  exists (title_shape : shape_) left top,
    chart_slide PlainScript.Inches PlainScript.slide_width PlainScript.slide_height
      {| title := "t"; image_buffer := {| fig_title := "t"; fig_xlabel := "x";
                                          fig_ylabel := "Count"; fig_data := Hist [] |} |} =
      BlankSlide [title_shape;
                  Picture {| fig_title := "t"; fig_xlabel := "x";
                             fig_ylabel := "Count"; fig_data := Hist [] |} left top
                          (inject_Z 7315200) (inject_Z 4572000)] /\
    (0 <= left)%Q /\ (0 <= top)%Q /\
    (top + inject_Z 4572000 <= inject_Z 6858000)%Q.
Proof.
  destruct (chart_picture_placement PlainScript.Inches PlainScript.slide_width
              PlainScript.slide_height
              {| title := "t"; image_buffer := {| fig_title := "t"; fig_xlabel := "x";
                                                  fig_ylabel := "Count"; fig_data := Hist [] |} |})
    as [title_shape [left [top [Hslide [_ [_ [Hleft Htop]]]]]]].
  exists title_shape, left, top. split; [exact Hslide|].
  assert (Hwide : (PlainScript.Inches 8%Q <= PlainScript.slide_width)%Z)
    by (vm_compute; discriminate).
  assert (Hhalf : (0 <= PlainScript.Inches (5 # 10))%Z) by (vm_compute; discriminate).
  assert (Hhigh : (PlainScript.Inches 5%Q + 2 * PlainScript.Inches (5 # 10) <=
                   PlainScript.slide_height)%Z) by (vm_compute; discriminate).
  exact (conj (Hleft Hwide) (Htop Hhalf Hhigh)).
Defined.

(** ** Where the charts come from *)

Section ChartSources.

Variable str_to_number : string -> option Q.
Variable df : DataFrame.
Variable all_items : list (string * column_entry).

Lemma chart_step_source (st st' : charts_state) (item : string * column_entry) :
  In item all_items ->
  chart_step df st item = Return st' ->
  Forall (drawn_from df all_items) (chart_images_for_ppt st) ->
  Forall (drawn_from df all_items) (chart_images_for_ppt st').
Proof.
  destruct item as [col_name [i|i]]; intros Hin; unfold chart_step.
  - destruct (10 <? info_count i) eqn:Hcount.
    + destruct (df_getitem df col_name) as [col|err] eqn:Hcol; [|discriminate].
      cbn [bind]. intros [= <-] Hall. cbn [chart_images_for_ppt].
      apply List.Forall_app. split; [exact Hall|].
      constructor; [|constructor].
      exists col_name, (Numeric i). split; [exact Hin|]. split; [reflexivity|].
      split; [reflexivity|]. split; [reflexivity|].
      split; [apply Nat.ltb_lt, Hcount|]. exists col. split; [exact Hcol | reflexivity].
    + intros [= <-] Hall. exact Hall.
  - destruct (unique_values i <? 50) eqn:Hunique.
    + intros [= <-] Hall. cbn [chart_images_for_ppt].
      apply List.Forall_app. split; [exact Hall|].
      constructor; [|constructor].
      exists col_name, (Categorical i). split; [exact Hin|]. split; [reflexivity|].
      split; [reflexivity|]. split; [reflexivity|].
      split; [reflexivity | apply Nat.ltb_lt, Hunique].
    + intros [= <-] Hall. exact Hall.
Qed.

Lemma chart_loop_source (items : list (string * column_entry)) (st st' : charts_state) :
  (forall item, In item items -> In item all_items) ->
  chart_loop df items st = Return st' ->
  Forall (drawn_from df all_items) (chart_images_for_ppt st) ->
  Forall (drawn_from df all_items) (chart_images_for_ppt st').
Proof.
  revert st. induction items as [|item items IH]; intros st Hsub; cbn [chart_loop].
  - intros [= <-] Hall. exact Hall.
  - destruct (chart_step df st item) as [st1|err] eqn:Hstep; [|discriminate].
    cbn [bind]. intros Hloop Hall.
    apply (IH st1); [intros it Hit; apply Hsub; right; exact Hit | exact Hloop |].
    apply (chart_step_source st st1 item); [apply Hsub; left; reflexivity | exact Hstep | exact Hall].
Qed.

Lemma profiles_of_entry (cols : list (string * Series))
    (info : list (string * column_entry)) (col_name : string) (e : column_entry) :
  profiles_of str_to_number cols info ->
  In (col_name, e) info ->
  exists col, In (col_name, col) cols /\ column_profile str_to_number col = Return e.
Proof.
  induction 1 as [|c x cols info [Hk He] _ IH]; intros Hin; [destruct Hin|].
  destruct Hin as [->|Hin].
  - simpl in Hk, He. exists (snd c). split; [|exact He].
    left. destruct c as [k col]. simpl in *. congruence.
  - destruct (IH Hin) as [col [Hcol Hprof]]. exists col. split; [right; exact Hcol | exact Hprof].
Qed.

End ChartSources.

Lemma visualizations_source (df : DataFrame) (column_info : list (string * column_entry))
    (st : charts_state) :
  visualizations df column_info = Return st ->
  Forall (drawn_from df column_info) (chart_images_for_ppt st).
Proof.
  unfold visualizations.
  destruct (chart_loop df column_info _) as [st1|err] eqn:Hloop; [|discriminate].
  cbn [bind]. intros Hst.
  assert (Hall : Forall (drawn_from df column_info) (chart_images_for_ppt st1)).
  { apply (chart_loop_source df column_info column_info _ st1 (fun _ H => H) Hloop).
    constructor. }
  destruct (num_charts_displayed st1 =? 0); injection Hst as <-; exact Hall.
Qed.

(** X17.  Every chart is drawn from the column it names.  A frequency chart
    shows the value counts of its column, which has fewer than 50 distinct
    values.  A distribution chart is drawn from all the non-missing values
    of its column, those that did not convert to a number included, so
    from at least as many values as the count reported for the column,
    which is more than 10. *)
Theorem charts_are_drawn_from_their_columns
    (str_to_number : string -> option Q) (format_2f : stat -> string)
    (df : DataFrame) :
  List.NoDup (df_columns df) ->
  exists r st,
    analyze_frame str_to_number format_2f df = Return r /\
    visualizations df (column_info r) = Return st /\
    Forall (fun c =>
              exists col e,
                In (fig_xlabel (image_buffer c), col) (frame df) /\
                column_profile str_to_number col = Return e /\
                match e with
                | Categorical i =>
                    fig_data (image_buffer c) = Bars (value_counts col) /\
                    size (value_counts col) < 50
                | Numeric i =>
                    fig_data (image_buffer c) = Hist (raw_values col) /\
                    length (raw_values col) = length col - numeric_missing_count i /\
                    info_count i <= length (raw_values col) /\
                    10 < info_count i
                end)
           (chart_images_for_ppt st).
Proof.
  intros Hnd.
  destruct (analyze_frame_returns str_to_number format_2f df) as [info [Hinfo Hr]].
  destruct (analyze_columns_profiles str_to_number df (frame df) [] Hnd)
    as [entries [Hrun Hprof]]; [auto | exact Hnd |].
  unfold df_columns in Hinfo. rewrite Hrun in Hinfo. injection Hinfo as <-.
  destruct (visualizations_spec df entries) as [st [Hvis _]].
  { intros item Hitem. apply (analyze_frame_keys str_to_number format_2f df _ Hr).
    exact Hitem. }
  eexists _, st. split; [exact Hr|]. split; [exact Hvis|].
  cbn [column_info] in *.
  pose proof (visualizations_source df entries st Hvis) as Hsrc.
  eapply List.Forall_impl; [|exact Hsrc].
  intros c [col_name [e [Hin [Hlabel Hshape]]]].
  destruct (profiles_of_entry str_to_number _ _ _ _ Hprof Hin) as [col [Hcol He]].
  exists col, e. rewrite Hlabel. split; [exact Hcol|]. split; [exact He|].
  destruct e as [i|i].
  - destruct Hshape as [_ [_ [Hcount [col' [Hget Hdata]]]]].
    pose proof (df_getitem_unique df (col_name, col) Hnd Hcol) as Hsame.
    cbn [fst snd] in Hsame. rewrite Hsame in Hget. injection Hget as <-.
    split; [exact Hdata|].
    apply column_profile_numeric in He. subst i. cbn [info_count numeric_missing_count] in *.
    rewrite raw_values_length.
    split; [reflexivity|]. split; [|exact Hcount].
    apply (numeric_le_non_missing str_to_number col).
  - destruct Hshape as [_ [_ [Hdata Hunique]]].
    apply column_profile_categorical in He. subst i. cbn [counts unique_values] in *.
    split; [exact Hdata | exact Hunique].
Qed.

Lemma charts_are_drawn_from_their_columns_witness :
  exists r st,
    analyze_frame Plain.str_to_number Plain.format_2f
      {| index_len := 2; frame := [("k", [Str "x"; Str "y"])] |} = Return r /\
    visualizations {| index_len := 2; frame := [("k", [Str "x"; Str "y"])] |}
      (column_info r) = Return st /\
    Forall (fun c => fig_xlabel (image_buffer c) = "k") (chart_images_for_ppt st).
Proof.
  destruct (charts_are_drawn_from_their_columns Plain.str_to_number Plain.format_2f
              {| index_len := 2; frame := [("k", [Str "x"; Str "y"])] |})
    as [r [st [Hr [Hvis Hall]]]].
  - apply List.NoDup_cons; [intros [] | apply List.NoDup_nil].
  - exists r, st. split; [exact Hr|]. split; [exact Hvis|].
    eapply List.Forall_impl; [|exact Hall].
    intros c [col [e [[Hin|[]] _]]]. injection Hin as Hname _. symmetry. exact Hname.
Defined.

(** ** The text report *)

Section Summary.

Variable format_2f : stat -> string.

Lemma append_assoc (s t u : string) : (s ++ t) ++ u = s ++ (t ++ u).
Proof.
  induction s as [|a s IH]; [reflexivity|].
  change (String a ((s ++ t) ++ u) = String a (s ++ (t ++ u))).
  rewrite IH. reflexivity.
Qed.

Lemma fold_left_append (lines : list string) (acc : string) :
  fold_left String.append lines acc = acc ++ fold_right String.append "" lines.
Proof.
  revert acc. induction lines as [|l lines IH]; intros acc; cbn [fold_left fold_right].
  - induction acc as [|a acc IHacc]; [reflexivity|].
    change (String a acc = String a (acc ++ "")). rewrite <- IHacc. reflexivity.
  - rewrite IH. apply append_assoc.
Qed.

Lemma fold_left_column_lines (info : list (string * column_entry)) (acc : string) :
  fold_left (fun summary item => summary ++ column_line format_2f (fst item) (snd item))
            info acc =
  fold_left String.append
            (map (fun item => column_line format_2f (fst item) (snd item)) info) acc.
Proof.
  revert acc. induction info as [|item info IH]; intros acc; [reflexivity|].
  cbn [fold_left map]. apply IH.
Qed.

End Summary.

(** X18.  The summary is the three heading lines, which depend only on the
    numbers of rows, columns and missing cells and on the percentage,
    followed by one line per entry of the column information, in order.
    Each line starts with the name of the column between "- **" and
    "**: " and ends with "Missing: ", the missing count of the column, and
    " values." and a newline. *)
Theorem summary_has_one_line_per_column
    (format_2f : stat -> string) (num_rows num_cols missing_values_count : nat)
    (missing_percentage : Q) (column_info : list (string * column_entry)) :
  render_summary format_2f num_rows num_cols missing_values_count missing_percentage
    column_info =
  render_summary format_2f num_rows num_cols missing_values_count missing_percentage [] ++
  fold_right String.append ""
    (map (fun item => column_line format_2f (fst item) (snd item)) column_info) /\
  forall col_name e,
    exists body,
      column_line format_2f col_name e =
      "- **" ++ col_name ++ "**: " ++ body ++
      "Missing: " ++ str_nat (missing_count e) ++ " values." ++ nl.
Proof.
  split.
  - unfold render_summary. cbn [fold_left].
    rewrite fold_left_column_lines. apply fold_left_append.
  - intros col_name [i|i]; unfold column_line; cbn [missing_count].
    + exists ("Numeric (Min: " ++ format_2f (info_min i) ++
              ", Max: " ++ format_2f (info_max i) ++
              ", Mean: " ++ format_2f (info_mean i) ++
              ", Median: " ++ format_2f (info_median i) ++
              ", Std Dev: " ++ format_2f (info_std i) ++
              ", Non-null: " ++ str_nat (info_count i) ++ "). ").
      rewrite !append_assoc. reflexivity.
    + exists ("Categorical (" ++ str_nat (unique_values i) ++ " unique values). ").
      rewrite !append_assoc. reflexivity.
Qed.

(** ** Two runs of the analysis *)

Section TwoRuns.

Variable str_to_number : string -> option Q.
Variable format_2f : stat -> string.
Variable to_dict1 to_dict2 : gmap string nat -> list (string * nat).
Hypothesis Hlists1 : lists_the_entries to_dict1.
Hypothesis Hlists2 : lists_the_entries to_dict2.

Lemma column_profile_by_agree (col : Series) :
  exists e1 e2,
    column_profile_by str_to_number to_dict1 col = Return e1 /\
    column_profile_by str_to_number to_dict2 col = Return e2 /\
    same_entry e1 e2.
Proof.
  unfold column_profile_by. rewrite primarily_numeric_spec. cbn [bind].
  match goal with |- context [if ?b then _ else _] => destruct b end.
  - eexists _, _. split; [reflexivity|]. split; reflexivity.
  - eexists _, _. split; [reflexivity|]. split; [reflexivity|].
    assert (Hperm : Permutation (to_dict1 (value_counts col)) (to_dict2 (value_counts col))).
    { etransitivity; [apply Hlists1 | symmetry; apply Hlists2]. }
    cbn [same_entry]. split; [apply Permutation_length, Hperm|].
    split; [reflexivity | exact Hperm].
Qed.

Lemma dict_set_same (d1 d2 : list (string * ordered_entry)) (k : string)
    (v1 v2 : ordered_entry) :
  Forall2 same_column d1 d2 -> same_entry v1 v2 ->
  Forall2 same_column (dict_set d1 k v1) (dict_set d2 k v2).
Proof.
  intros Hd Hv. induction Hd as [|[k1 a] [k2 b] d1 d2 [Hk Hab] Hrest IH]; cbn [dict_set].
  - constructor; [split; [reflexivity | exact Hv] | constructor].
  - cbn [fst snd] in Hk, Hab. subst k2.
    destruct (String.eqb k1 k).
    + constructor; [split; [reflexivity | exact Hv] | exact Hrest].
    + constructor; [split; [reflexivity | exact Hab] | exact IH].
Qed.

Lemma analyze_columns_by_agree (df : DataFrame) (names : list string)
    (acc1 acc2 : list (string * ordered_entry)) :
  (forall n, In n names -> In n (df_columns df)) ->
  Forall2 same_column acc1 acc2 ->
  exists info1 info2,
    analyze_columns_by str_to_number to_dict1 df names acc1 = Return info1 /\
    analyze_columns_by str_to_number to_dict2 df names acc2 = Return info2 /\
    Forall2 same_column info1 info2.
Proof.
  revert acc1 acc2. induction names as [|n names IH]; intros acc1 acc2 Hin Hacc.
  - exists acc1, acc2. split; [reflexivity|]. split; [reflexivity | exact Hacc].
  - cbn [analyze_columns_by].
    destruct (df_getitem_returns df n) as [col [-> _]]; [apply Hin; left; reflexivity|].
    cbn [bind].
    destruct (column_profile_by_agree col) as [e1 [e2 [-> [-> He]]]]. cbn [bind].
    apply IH; [intros k Hk; apply Hin; right; exact Hk|].
    apply dict_set_same; assumption.
Qed.

Lemma column_line_by_same (col_name : string) (a b : ordered_entry) :
  same_entry a b ->
  column_line_by format_2f col_name a = column_line_by format_2f col_name b.
Proof.
  destruct a as [i|u c m], b as [j|u' c' m']; cbn [same_entry]; try contradiction.
  - intros ->. reflexivity.
  - intros [-> [-> _]]. reflexivity.
Qed.

Lemma fold_lines_by_same (info1 info2 : list (string * ordered_entry)) (acc : string) :
  Forall2 same_column info1 info2 ->
  fold_left (fun summary item => summary ++ column_line_by format_2f (fst item) (snd item))
            info1 acc =
  fold_left (fun summary item => summary ++ column_line_by format_2f (fst item) (snd item))
            info2 acc.
Proof.
  intros Hsame. revert acc.
  induction Hsame as [|a b info1 info2 [Hk Hab] _ IH]; intros acc; [reflexivity|].
  cbn [fold_left]. rewrite Hk, (column_line_by_same (fst b) _ _ Hab). apply IH.
Qed.

Lemma analyze_frame_by_agree (df : DataFrame) :
  exists r1 r2,
    analyze_frame_by str_to_number format_2f to_dict1 df = Return r1 /\
    analyze_frame_by str_to_number format_2f to_dict2 df = Return r2 /\
    o_row_count r1 = o_row_count r2 /\
    o_column_count r1 = o_column_count r2 /\
    o_total_missing r1 = o_total_missing r2 /\
    o_percentage r1 = o_percentage r2 /\
    Forall2 same_column (o_column_info r1) (o_column_info r2) /\
    o_summary r1 = o_summary r2.
Proof.
  destruct (analyze_columns_by_agree df (df_columns df) [] []) as [info1 [info2 [H1 [H2 Hsame]]]];
    [auto | constructor |].
  unfold analyze_frame_by, shape. rewrite missing_percentage_spec. cbn [bind].
  rewrite H1, H2. cbn [bind].
  eexists _, _. split; [reflexivity|]. split; [reflexivity|].
  cbn [o_row_count o_column_count o_total_missing o_percentage o_column_info o_summary].
  split; [reflexivity|]. split; [reflexivity|]. split; [reflexivity|].
  split; [reflexivity|]. split; [exact Hsame|].
  unfold render_summary_by. apply fold_lines_by_same. exact Hsame.
Qed.

End TwoRuns.



(** ** The script from the upload on *)

(** X12.  With no upload, or with an upload that decodes as UTF-8, the
    script draws a page that opens with the title and the uploader and
    closes with the footer, whatever the text and whether or not the
    button is pressed: no lookup in the result dictionary fails or finds a
    value of the wrong type, and no column lookup of the chart loop fails.
    With an upload that does not decode, the script stops at the decoding
    with only the header drawn: no error box, no footer. *)
Theorem script_draws_a_page_or_stops_at_decode
    (str_to_number : string -> option Q) (format_2f : stat -> string)
    (tokenize : string -> string + token_table) (na_values : list string)
    (to_csv : DataFrame -> string) (Inches : Q -> Z) (slide_width slide_height : Z)
    (context_text manual_steps_text : string)
    (decode : list N -> option string)
    (uploaded_file : option (list N)) (clicked : bool) :
  ((uploaded_file = None \/
    exists raw csv_content, uploaded_file = Some raw /\ decode raw = Some csv_content) ->
   exists body,
     script str_to_number format_2f tokenize na_values to_csv Inches slide_width
            slide_height context_text manual_steps_text decode uploaded_file clicked =
     Ran (Done (page_header ++ body ++ page_footer)%list)) /\
  (forall raw,
     uploaded_file = Some raw -> decode raw = None ->
     script str_to_number format_2f tokenize na_values to_csv Inches slide_width
            slide_height context_text manual_steps_text decode uploaded_file clicked =
     UnicodeDecodeError page_header).
Proof.
  split.
  - intros [-> | [raw [csv_content [-> Hdecode]]]]; unfold script.
    + destruct (app_draws_a_page str_to_number format_2f tokenize na_values to_csv
                  Inches slide_width slide_height context_text manual_steps_text
                  None clicked) as [body ->].
      exists body. reflexivity.
    + rewrite Hdecode.
      destruct (app_draws_a_page str_to_number format_2f tokenize na_values to_csv
                  Inches slide_width slide_height context_text manual_steps_text
                  (Some csv_content) clicked) as [body ->].
      exists body. reflexivity.
  - intros raw -> Hdecode. unfold script. rewrite Hdecode. reflexivity.
Qed.

Lemma script_draws_a_page_or_stops_at_decode_witness :
  Utf8.script (Some [255; 254; 97; 0]%N) false = UnicodeDecodeError page_header /\
  exists body,
    Utf8.script (Some [97; 44; 98; 10; 49; 44; 195; 169]%N) false =
    Ran (Done (page_header ++ body ++ page_footer)%list).
Proof.
  split.
  - exact (proj2 (script_draws_a_page_or_stops_at_decode Plain.str_to_number
                    Plain.format_2f Plain.tokenize Plain.STR_NA_VALUES PlainScript.to_csv
                    PlainScript.Inches PlainScript.slide_width PlainScript.slide_height
                    "" "" Utf8.decode (Some [255; 254; 97; 0]%N) false)
                 _ eq_refl eq_refl).
  - apply (proj1 (script_draws_a_page_or_stops_at_decode Plain.str_to_number
                    Plain.format_2f Plain.tokenize Plain.STR_NA_VALUES PlainScript.to_csv
                    PlainScript.Inches PlainScript.slide_width PlainScript.slide_height
                    "" "" Utf8.decode (Some [97; 44; 98; 10; 49; 44; 195; 169]%N) false)).
    right. eexists _, _. split; reflexivity.
Defined.
